(** * IntelOwl plugin execution lifecycle

    A shallow embedding of [api_app/classes.py] (class [Plugin]) and of
    [api_app/engines_manager/tasks.py] ([execute_engine_module]).

    Python objects that the code mutates (the plugin instance, the in-memory
    report, the database rows) live in an explicit state; exceptions are the
    second outcome of every computation.  The state is kept when an exception
    is raised, as in Python. *)

From Stdlib Require Import ZArith NArith Ascii String List DecimalString.
From Stdlib.Strings Require Import Byte.
From stdpp Require Import base option list strings gmap fin_maps.

Open Scope Z_scope.
Open Scope string_scope.
Open Scope list_scope.

(** ** Python values *)

(** [django.core.files.File] over a file opened in binary mode: [bool(f)] is
    [bool(f.name)]; [f_data] is what [f.read()] returns. *)
Record File := mkFile { f_name : string; f_data : list byte }.

#[warnings="-register-all"] Inductive value :=
| VNone
| VBool (b : bool)
| VInt (z : Z)
| VStr (s : string)
| VBytes (b : list byte)
| VFile (f : File)
| VList (l : list value)
| VTuple (l : list value)
| VDict (d : list (string * value)).

(** Python truthiness ([if x], [not x]). *)
Definition truthy (v : value) : bool :=
  match v with
  | VNone => false
  | VBool b => b
  | VInt z => negb (Z.eqb z 0)
  | VStr s => negb (String.eqb s "")
  | VBytes b => match b with [] => false | _ => true end
  | VFile f => negb (String.eqb (f_name f) "")
  | VList l | VTuple l => match l with [] => false | _ => true end
  | VDict d => match d with [] => false | _ => true end
  end.

(** ** Values as text: [type(v).__name__], [str(v)] and [repr(v)] *)

Definition type_name (v : value) : string :=
  match v with
  | VNone => "NoneType"
  | VBool _ => "bool"
  | VInt _ => "int"
  | VStr _ => "str"
  | VBytes _ => "bytes"
  | VFile _ => "File"
  | VList _ => "list"
  | VTuple _ => "tuple"
  | VDict _ => "dict"
  end.

Module Repr.

Definition single_quote : ascii := "'".
Definition double_quote : ascii := ascii_of_nat 34.
Definition backslash : ascii := ascii_of_nat 92.

Definition hex_digit (n : nat) : ascii :=
  match String.get (n mod 16) "0123456789abcdef" with
  | Some c => c
  | None => "0"%char
  end.

Fixpoint has_char (c : ascii) (s : string) : bool :=
  match s with
  | EmptyString => false
  | String c' s' => Ascii.eqb c c' || has_char c s'
  end.

(** The quote [repr] puts around a string: the double quote when the string
    has a single quote and no double quote, the single quote otherwise. *)
Definition quote_for (s : string) : ascii :=
  if has_char single_quote s && negb (has_char double_quote s)
  then double_quote else single_quote.

(** One character inside the quotes. [escape_high]: bytes above 127 are
    written as [\xNN], as [repr] of a [bytes] object does; in a [str] they
    are the code units of printable text and stay. *)
Definition escape (escape_high : bool) (quote c : ascii) : string :=
  let n := nat_of_ascii c in
  if Ascii.eqb c backslash then String backslash (String backslash EmptyString)
  else if Ascii.eqb c quote then String backslash (String quote EmptyString)
  else if Nat.eqb n 9 then String backslash "t"
  else if Nat.eqb n 10 then String backslash "n"
  else if Nat.eqb n 13 then String backslash "r"
  else if Nat.ltb n 32 || Nat.eqb n 127 || (escape_high && Nat.leb 128 n)
  then String backslash (String "x" (String (hex_digit (n / 16))
                                        (String (hex_digit n) EmptyString)))
  else String c EmptyString.

Fixpoint escape_all (escape_high : bool) (quote : ascii) (s : string) : string :=
  match s with
  | EmptyString => EmptyString
  | String c s' => (escape escape_high quote c ++ escape_all escape_high quote s')%string
  end.

Definition quoted (escape_high : bool) (s : string) : string :=
  let q := quote_for s in
  String q (escape_all escape_high q s ++ String q EmptyString)%string.

Fixpoint join (sep : string) (l : list string) : string :=
  match l with
  | [] => EmptyString
  | [x] => x
  | x :: l' => (x ++ sep ++ join sep l')%string
  end.

End Repr.

(** [repr(v)]. A [File] is [<File: name>], and [<File: None>] when it is
    falsy. *)
Fixpoint py_repr (v : value) : string :=
  match v with
  | VNone => "None"
  | VBool b => if b then "True" else "False"
  | VInt z => NilZero.string_of_int (Z.to_int z)
  | VStr s => Repr.quoted false s
  | VBytes b => ("b" ++ Repr.quoted true (string_of_list_byte b))%string
  | VFile f =>
      ("<File: " ++ (if String.eqb (f_name f) "" then "None" else f_name f) ++ ">")%string
  | VList l => ("[" ++ Repr.join ", " (List.map py_repr l) ++ "]")%string
  | VTuple l =>
      match l with
      | [x] => ("(" ++ py_repr x ++ ",)")%string
      | _ => ("(" ++ Repr.join ", " (List.map py_repr l) ++ ")")%string
      end
  | VDict d =>
      ("{" ++ Repr.join ", "
                (List.map (fun kv => (Repr.quoted false (fst kv) ++ ": "
                                      ++ py_repr (snd kv))%string) d)
           ++ "}")%string
  end.

(** [str(v)], which is what an f-string writes for [{v}]. *)
Definition py_str (v : value) : string :=
  match v with
  | VStr s => s
  | VFile f => f_name f
  | _ => py_repr v
  end.

(** ** [base64.b64encode] and [bytes.decode("utf-8")] *)
Module Base64.

Definition alphabet : string :=
  "ABCDEFGHIJKLMNOPQRSTUVWXYZabcdefghijklmnopqrstuvwxyz0123456789+/".

Definition pad : byte := "=".

(** The character of a 6-bit group. *)
Definition sextet (n : N) : byte :=
  match String.get (N.to_nat (N.land n 63)) alphabet with
  | Some c => byte_of_ascii c
  | None => pad
  end.

Fixpoint b64encode (bs : list byte) : list byte :=
  match bs with
  | [] => []
  | [a] =>
      let n := N.shiftl (Byte.to_N a) 16 in
      [sextet (N.shiftr n 18); sextet (N.shiftr n 12); pad; pad]
  | [a; b] =>
      let n := N.lor (N.shiftl (Byte.to_N a) 16) (N.shiftl (Byte.to_N b) 8) in
      [sextet (N.shiftr n 18); sextet (N.shiftr n 12); sextet (N.shiftr n 6); pad]
  | a :: b :: c :: rest =>
      let n := N.lor (N.lor (N.shiftl (Byte.to_N a) 16) (N.shiftl (Byte.to_N b) 8))
                     (Byte.to_N c) in
      sextet (N.shiftr n 18) :: sextet (N.shiftr n 12) :: sextet (N.shiftr n 6)
        :: sextet n :: b64encode rest
  end.

(** [.decode("utf-8")] on bytes below 128, which is all [b64encode] emits. *)
Definition decode (bs : list byte) : string := string_of_list_byte bs.

Definition bytes_of_string (s : string) : list byte := list_byte_of_string s.

End Base64.

(** ** Exceptions *)

(** What [hasattr(e, "response")], [hasattr(e.response, "status_code")] and
    [e.response.status_code] see. *)
Inductive response_attr :=
| NoResponseAttr                      (* e has no attribute response *)
| ResponseWithout                     (* e.response has no status_code (e.g. None) *)
| ResponseStatus (status_code : Z).

(** An instance of a subclass of [Exception]. [exc_classes] lists the names of
    its class and of its base classes; [isinstance] is membership. *)
Record exception := mkExc {
  exc_classes : list string;
  exc_str : string;                   (* str(e) *)
  exc_response : response_attr
}.

(** Anything [raise] can throw: an [Exception], or a [BaseException] that is
    not an [Exception] (KeyboardInterrupt, SystemExit, GeneratorExit). *)
Inductive raised :=
| Raised (e : exception)
| RaisedBase (cls : string) (msg : string).

Definition isinstance (e : exception) (cls : string) : bool :=
  existsb (String.eqb cls) (exc_classes e).

Definition isinstance_any (e : exception) (clss : list string) : bool :=
  existsb (isinstance e) clss.

Inductive Result (A : Type) :=
| Ok (a : A)
| Raise (r : raised).
Arguments Ok {A} a.
Arguments Raise {A} r.

(** ** The data model *)

(** [AbstractReport.STATUSES], restricted to the members this file uses. *)
Inductive Status := RUNNING | SUCCESS | FAILED.


(** A report: the in-memory object [self.report] and a database row have the
    same fields. *)
Record Report := mkReport {
  rep_pk : Z;
  rep_job : Z;
  rep_task_id : string;
  rep_status : Status;
  rep_report : value;
  rep_errors : list string;
  rep_start_time : Z;
  rep_end_time : option Z
}.

Record User := mkUser {
  username : string;
  membership : option Z               (* the organization, when has_membership() *)
}.

Record Job := mkJob {
  j_pk : Z;
  j_user : User;
  j_data_model : gmap string value           (* job.data_model *)
}.

(** The model [Parameter] (a reserved word here), as [read_configured_params] and the annotated queryset of
    [_get_health_check_url] give it. *)
Record Param := mkParam {
  p_name : string;
  p_value : value;
  p_is_secret : bool;
  p_required : bool;
  p_is_from_org : bool;
  p_configured : bool
}.

Record OrgConfiguration := mkOrgConfiguration {
  rate_limit_timeout : option Z;
  org_disabled : bool
}.

(** [PythonConfig]: the two queries of the Parameter Resolver are its
    collaborators' answers. *)
Record PythonConfig := mkPythonConfig {
  cfg_name : string;
  cfg_annotated_parameters : option User -> list Param;
  cfg_read_configured_params : User -> list (string * value) -> Result (list Param)
}.

(** What [requests.head(url, timeout=10, verify=False)] does. *)
Inductive HeadOutcome :=
| HeadResponse (status_code : Z) (reason : string)
| HeadRaises (e : exception).

Inductive LogLevel := DEBUG | INFO | WARNING | ERROR | EXCEPTION.

(** Observable steps, most recent first in [w_trace]. *)
Inductive Event :=
| EvCall (method : string)
| EvPrint (msg : string)
| EvReportCreated (pk : Z)
| EvSetStatus (s : Status)
| EvSetReport (v : value)
| EvAppendError (msg : string)
| EvSetEndTime (t : Z)
| EvSave (pk : Z) (update_fields : option (list string))
| EvOrgDisable (org : Z)
| EvLog (level : LogLevel) (msg : string) (args : list value)
| EvPrintExc
| EvHead (url : string).

Record Settings := mkSettings { STAGE_CI : bool; MOCK_CONNECTIONS : bool }.

(** Everything outside the plugin instance. *)
Record World := mkWorld {
  w_settings : Settings;
  w_jobs : gmap Z Job;
  w_reports : gmap Z Report;
  w_next_report_pk : Z;
  w_org_configs : gmap Z OrgConfiguration;
  w_now : Z;
  w_head : string -> HeadOutcome;
  w_trace : list Event
}.

(** The attributes of [self]. [None] is an attribute that is not set. *)
Record Instance := mkInstance {
  i_config : PythonConfig;            (* self._config *)
  i_job_id : option Z;                (* self._job_id *)
  i_job : option Job;                 (* cached self._job *)
  i_user : option User;               (* cached self._user *)
  i_parameters : option (list Param);   (* self.__parameters *)
  i_attrs : gmap string value;        (* attributes bound by config() *)
  i_report : option Report            (* self.report *)
}.

Record State := mkState { st_world : World; st_self : Instance }.

Definition set_w_jobs (f : gmap Z Job -> gmap Z Job) (w : World) : World :=
  mkWorld (w_settings w) (f (w_jobs w)) (w_reports w) (w_next_report_pk w)
          (w_org_configs w) (w_now w) (w_head w) (w_trace w).
Definition set_w_reports (f : gmap Z Report -> gmap Z Report) (w : World) : World :=
  mkWorld (w_settings w) (w_jobs w) (f (w_reports w)) (w_next_report_pk w)
          (w_org_configs w) (w_now w) (w_head w) (w_trace w).
Definition set_w_next_report_pk (f : Z -> Z) (w : World) : World :=
  mkWorld (w_settings w) (w_jobs w) (w_reports w) (f (w_next_report_pk w))
          (w_org_configs w) (w_now w) (w_head w) (w_trace w).
Definition set_w_org_configs
    (f : gmap Z OrgConfiguration -> gmap Z OrgConfiguration) (w : World) : World :=
  mkWorld (w_settings w) (w_jobs w) (w_reports w) (w_next_report_pk w)
          (f (w_org_configs w)) (w_now w) (w_head w) (w_trace w).
Definition set_w_now (f : Z -> Z) (w : World) : World :=
  mkWorld (w_settings w) (w_jobs w) (w_reports w) (w_next_report_pk w)
          (w_org_configs w) (f (w_now w)) (w_head w) (w_trace w).
Definition set_w_trace (f : list Event -> list Event) (w : World) : World :=
  mkWorld (w_settings w) (w_jobs w) (w_reports w) (w_next_report_pk w)
          (w_org_configs w) (w_now w) (w_head w) (f (w_trace w)).

Definition set_i_job_id (x : option Z) (i : Instance) : Instance :=
  mkInstance (i_config i) x (i_job i) (i_user i) (i_parameters i) (i_attrs i) (i_report i).
Definition set_i_job (x : option Job) (i : Instance) : Instance :=
  mkInstance (i_config i) (i_job_id i) x (i_user i) (i_parameters i) (i_attrs i) (i_report i).
Definition set_i_user (x : option User) (i : Instance) : Instance :=
  mkInstance (i_config i) (i_job_id i) (i_job i) x (i_parameters i) (i_attrs i) (i_report i).
Definition set_i_parameters (x : option (list Param)) (i : Instance) : Instance :=
  mkInstance (i_config i) (i_job_id i) (i_job i) (i_user i) x (i_attrs i) (i_report i).
Definition set_i_attrs (f : gmap string value -> gmap string value) (i : Instance) : Instance :=
  mkInstance (i_config i) (i_job_id i) (i_job i) (i_user i) (i_parameters i) (f (i_attrs i))
             (i_report i).
Definition set_i_report (x : option Report) (i : Instance) : Instance :=
  mkInstance (i_config i) (i_job_id i) (i_job i) (i_user i) (i_parameters i) (i_attrs i) x.

Definition set_rep_status (x : Status) (r : Report) : Report :=
  mkReport (rep_pk r) (rep_job r) (rep_task_id r) x (rep_report r) (rep_errors r)
           (rep_start_time r) (rep_end_time r).
Definition set_rep_report (x : value) (r : Report) : Report :=
  mkReport (rep_pk r) (rep_job r) (rep_task_id r) (rep_status r) x (rep_errors r)
           (rep_start_time r) (rep_end_time r).
Definition set_rep_errors (x : list string) (r : Report) : Report :=
  mkReport (rep_pk r) (rep_job r) (rep_task_id r) (rep_status r) (rep_report r) x
           (rep_start_time r) (rep_end_time r).
Definition set_rep_end_time (x : option Z) (r : Report) : Report :=
  mkReport (rep_pk r) (rep_job r) (rep_task_id r) (rep_status r) (rep_report r) (rep_errors r)
           (rep_start_time r) x.

(** ** The instance dictionary under [setattr]

    [config] binds every parameter with [setattr(self, name, value)],
    whatever the name. [Instance] holds the attributes of the instance under
    the objects of their kind, and in [i_attrs] those that a parameter added.
    A name to which [Instance] or the class [Plugin] already gives a meaning
    can be bound as well: [Rebound] has, for such a name, what the instance
    dictionary holds in its place since: [Some v], the value of a parameter,
    or [None], no entry at all (after the dictionary itself was replaced).
    The most recent entry of a name comes first. *)
Definition Rebound : Type := list (string * option value).

Fixpoint rebound_lookup (name : string) (b : Rebound) : option (option value) :=
  match b with
  | [] => None
  | (k, x) :: b' => if String.eqb k name then Some x else rebound_lookup name b'
  end.

Fixpoint rebound_remove (name : string) (b : Rebound) : Rebound :=
  match b with
  | [] => []
  | (k, x) :: b' =>
      if String.eqb k name then rebound_remove name b' else (k, x) :: rebound_remove name b'
  end.

Definition rebind (name : string) (v : value) (b : Rebound) : Rebound :=
  (name, Some v) :: b.

(** The world and the instance during a call. *)
Record Store := mkStore { store_state :> State; st_rebound : Rebound }.

(** A state is the store of an instance none of whose attributes has been
    rebound: the instance as [__init__], [start] and the cached properties
    build it. *)
Definition intact (s : State) : Store := mkStore s [].
#[warnings="-ambiguous-paths,-uniform-inheritance"]
Coercion intact : State >-> Store.

(** In a pair whose type is known, a state stands for its store. *)
Arguments pair {A B}%_type_scope & a b.

(** What [self.<name>] yields for an attribute of the instance: the object
    it holds, or the value that [setattr] has bound in its place. *)
Inductive attribute (A : Type) :=
| Held (a : A)
| Bound (v : value).
Arguments Held {A} a.
Arguments Bound {A} v.

(** ** The monad of Python code: state and exceptions *)

Definition M (A : Type) : Type := Store -> Result A * Store.

Definition ret {A} (a : A) : M A := fun s => (Ok a, s).

Definition bind {A B} (m : M A) (k : A -> M B) : M B :=
  fun s => match m s with
           | (Ok a, s') => k a s'
           | (Raise r, s') => (Raise r, s')
           end.

Definition raise {A} (r : raised) : M A := fun s => (Raise r, s).

Declare Scope py_scope.
Delimit Scope py_scope with py.
Notation "x <- m ;; k" := (bind m (fun x => k))
  (at level 100, m at next level, right associativity) : py_scope.
Notation "m ;;; k" := (bind m (fun _ => k))
  (at level 100, right associativity) : py_scope.
Open Scope py_scope.

Definition get_world : M World := fun s => (Ok (st_world s), s).
Definition get_self : M Instance := fun s => (Ok (st_self s), s).
Definition get_rebound : M Rebound := fun s => (Ok (st_rebound s), s).
Definition modify_world (f : World -> World) : M unit :=
  fun s => (Ok tt, mkStore (mkState (f (st_world s)) (st_self s)) (st_rebound s)).
Definition modify_self (f : Instance -> Instance) : M unit :=
  fun s => (Ok tt, mkStore (mkState (st_world s) (f (st_self s))) (st_rebound s)).
Definition modify_rebound (f : Rebound -> Rebound) : M unit :=
  fun s => (Ok tt, mkStore (mkState (st_world s) (st_self s)) (f (st_rebound s))).

Definition emit (ev : Event) : M unit := modify_world (set_w_trace (cons ev)).

(** A step of [start], recorded where [start] takes it. *)
Definition call {A} (method : string) (m : M A) : M A := emit (EvCall method) ;;; m.

(** The outcome of code this file has no body for. *)
Definition outcome {A} (r : Result A) : M A := fun s => (r, s).

(** [try: body / except <catches> as e: handler / else: orelse / finally:
    finalbody]. An exception the clause does not catch, or one raised by the
    handler or by [orelse], passes through [finalbody]; one raised by
    [finalbody] replaces it. *)
Definition try_except_else_finally {A B}
    (body : M A) (catches : raised -> option exception)
    (handler : exception -> M B) (orelse : A -> M B) (finalbody : M unit) : M B :=
  fun s =>
    let '(r1, s1) := body s in
    let '(r2, s2) :=
      match r1 with
      | Ok a => orelse a s1
      | Raise r => match catches r with
                   | Some e => handler e s1
                   | None => (Raise r, s1)
                   end
      end in
    match finalbody s2 with
    | (Ok _, s3) => (r2, s3)
    | (Raise r, s3) => (Raise r, s3)
    end.

(** [except Exception as e] *)
Definition except_Exception (r : raised) : option exception :=
  match r with Raised e => Some e | RaisedBase _ _ => None end.

(** [except (C1, C2, ...) as e] *)
Definition except_classes (clss : list string) (r : raised) : option exception :=
  match r with
  | Raised e => if isinstance_any e clss then Some e else None
  | RaisedBase _ _ => None
  end.

Definition AttributeError (msg : string) : raised :=
  Raised (mkExc ["AttributeError"; "Exception"] msg NoResponseAttr).
Definition NotImplementedError (msg : string) : raised :=
  Raised (mkExc ["NotImplementedError"; "RuntimeError"; "Exception"] msg NoResponseAttr).
Definition DoesNotExist (msg : string) : raised :=
  Raised (mkExc ["DoesNotExist"; "ObjectDoesNotExist"; "Exception"] msg NoResponseAttr).
Definition TypeError (msg : string) : raised :=
  Raised (mkExc ["TypeError"; "Exception"] msg NoResponseAttr).
Definition ValueError (msg : string) : raised :=
  Raised (mkExc ["ValueError"; "Exception"] msg NoResponseAttr).
Definition ImportError (msg : string) : raised :=
  Raised (mkExc ["ImportError"; "Exception"] msg NoResponseAttr).
(** Class names of [requests.exceptions] and [billiard.exceptions]. *)
Definition HTTPError : string := "requests.exceptions.HTTPError".
Definition ConnectionError : string := "requests.exceptions.ConnectionError".
Definition Timeout : string := "requests.exceptions.Timeout".
Definition SoftTimeLimitExceeded : string := "billiard.exceptions.SoftTimeLimitExceeded".

Definition mkHTTPError (msg : string) (resp : response_attr) : exception :=
  mkExc [HTTPError; "requests.exceptions.RequestException"; "OSError"; "Exception"] msg resp.

Definition str_of_Z (z : Z) : string := NilZero.string_of_int (Z.to_int z).

(** [v.<member>] for a value [v] of a parameter and a member it has not. *)
Definition no_attribute (v : value) (member : string) : raised :=
  AttributeError ("'" ++ type_name v ++ "' object has no attribute '" ++ member ++ "'")%string.

(** [self.<name>] for a name that neither the instance nor its class has. *)
Definition no_instance_attribute (class_name name : string) : raised :=
  AttributeError ("'" ++ class_name ++ "' object has no attribute '" ++ name ++ "'")%string.

(** [v(...)] for a value [v] of a parameter: none is callable. *)
Definition not_callable (v : value) : raised :=
  TypeError ("'" ++ type_name v ++ "' object is not callable")%string.

(** ** Strings: what the ORM lookups [contains] / [icontains] and
    [str.startswith] compute *)

Fixpoint contains (sub s : string) : bool :=
  String.prefix sub s ||
  match s with
  | EmptyString => false
  | String _ s' => contains sub s'
  end.

Definition lower_ascii (c : ascii) : ascii :=
  let n := nat_of_ascii c in
  if (Nat.leb 65 n && Nat.leb n 90)%bool then ascii_of_nat (n + 32) else c.

Fixpoint lower (s : string) : string :=
  match s with
  | EmptyString => EmptyString
  | String c s' => String (lower_ascii c) (lower s')
  end.

Definition icontains (sub s : string) : bool := contains (lower sub) (lower s).

(** ** The persistence layer, at its interface *)

(** [timezone.now()]: reads the clock, which then moves on. *)
Definition now : M Z :=
  w <- get_world ;;
  modify_world (set_w_now (fun t => t + 1)) ;;;
  ret (w_now w).

Definition copy_field (obj : Report) (row : Report) (field : string) : Report :=
  if String.eqb field "status" then set_rep_status (rep_status obj) row
  else if String.eqb field "report" then set_rep_report (rep_report obj) row
  else if String.eqb field "errors" then set_rep_errors (rep_errors obj) row
  else if String.eqb field "end_time" then set_rep_end_time (rep_end_time obj) row
  else row.

Definition DatabaseError (msg : string) : raised :=
  Raised (mkExc ["DatabaseError"; "Error"; "Exception"] msg NoResponseAttr).

(** Modelled from the spec: the Report Store's [Report.save(fields)] is not in
    the sources. [save()] writes the whole object to its row;
    [save(update_fields=fs)] writes only the fields named in [fs] to the
    existing row. *)
Definition Report_save (obj : Report) (update_fields : option (list string)) : M unit :=
  w <- get_world ;;
  match update_fields with
  | None =>
      modify_world (set_w_reports <[rep_pk obj := obj]>) ;;;
      emit (EvSave (rep_pk obj) update_fields)
  | Some fs =>
      match w_reports w !! rep_pk obj with
      | Some row =>
          modify_world (set_w_reports <[rep_pk obj := fold_left (copy_field obj) fs row]>) ;;;
          emit (EvSave (rep_pk obj) update_fields)
      | None => raise (DatabaseError "Save with update_fields did not affect any rows.")
      end
  end.

(** Modelled from the spec: [PythonConfig.generate_empty_report] is not in the
    sources; the spec's Report Store has [createEmptyReport(job, taskId,
    status=RUNNING)], an empty report "tagged with taskId and a start
    timestamp". *)
Definition generate_empty_report (job : Job) (task_id : string) (status : Status) : M Report :=
  w <- get_world ;;
  t <- now ;;
  let r := mkReport (w_next_report_pk w) (j_pk job) task_id status (VDict []) [] t None in
  modify_world (set_w_next_report_pk (fun n => n + 1)) ;;;
  modify_world (set_w_reports <[rep_pk r := r]>) ;;;
  emit (EvReportCreated (rep_pk r)) ;;;
  ret r.

(** Modelled from the spec: [get_or_create_org_configuration] is not in the
    sources; the spec's Organization Configuration Store has
    [getOrCreate(organization)], and [rateLimitTimeout] is nullable. *)
Definition get_or_create_org_configuration (org : Z) : M OrgConfiguration :=
  w <- get_world ;;
  match w_org_configs w !! org with
  | Some oc => ret oc
  | None =>
      let oc := mkOrgConfiguration None false in
      modify_world (set_w_org_configs <[org := oc]>) ;;;
      ret oc
  end.

(** Modelled from the spec: the disable action of the organization
    configuration is not in the sources; disabling an already disabled
    configuration changes nothing but is still an invocation. *)
Definition OrgConfiguration_disable_for_rate_limit (org : Z) (oc : OrgConfiguration) : M unit :=
  modify_world (set_w_org_configs <[org := mkOrgConfiguration (rate_limit_timeout oc) true]>) ;;;
  emit (EvOrgDisable org).

(** Modelled from the spec: [Job.objects.get(pk=...)] is not in the sources;
    the spec's Job Store has [getJob(jobId) -> Job | NotFound]. The key is an
    integer ([bool] is an [int]); for a key of another type the spec names no
    outcome but NotFound. *)
Definition Job_objects_get (pk : value) : M Job :=
  w <- get_world ;;
  let found :=
    match pk with
    | VInt z => w_jobs w !! z
    | VBool b => w_jobs w !! (if b then 1 else 0)
    | _ => None
    end in
  match found with
  | Some j => ret j
  | None => raise (DoesNotExist "Job matching query does not exist.")
  end.

(** ** [class Plugin] *)

(** What a concrete plugin class supplies: its names, its class attributes,
    the exception allow-list and the three extension points. *)
Record PluginClass := mkPluginClass {
  cls_name : string;                       (* __class__.__name__ *)
  cls_config_model_name : string;          (* config_model.__name__ *)
  cls_attrs : gmap string value;           (* class attributes, e.g. url *)
  cls_get_exceptions_to_catch : list string;
  cls_before_run : M unit;
  cls_run : M value;
  cls_after_run : M unit
}.

(** The name under which [config] binds a parameter: [f"_{parameter.name}"]
    for a secret one, [parameter.name] otherwise. *)
Definition attribute_name (parameter : Param) : string :=
  if p_is_secret parameter then ("_" ++ p_name parameter)%string else p_name parameter.

Module Plugin.

(** The attributes that the methods of [Plugin] assign on the instance. *)
Definition instance_attributes : list string :=
  ["_config"; "kwargs"; "_job_id"; "_job"; "_user"; "_Plugin__parameters"; "report"].

(** The names that the body of [class Plugin] defines. *)
Definition class_attributes : list string :=
  ["__init__"; "name"; "python_base_path"; "all_subclasses"; "_job"; "job_id"; "_user";
   "__repr__"; "__str__"; "config"; "before_run"; "run"; "after_run"; "after_run_success";
   "log_error"; "after_run_failed"; "report_model"; "config_model";
   "get_exceptions_to_catch"; "get_error_message"; "start"; "_handle_exception";
   "_monkeypatch"; "python_module"; "update"; "_get_health_check_url"; "health_check";
   "disable_for_rate_limit"].

(** The names that [setattr] on the instance does not store in the instance
    dictionary: the two properties, and the attributes of every object that
    hold its class, its dictionary and its weak references. *)
Definition data_descriptors : list string :=
  ["name"; "job_id"; "__class__"; "__dict__"; "__weakref__"].

(** A name that has a meaning of its own for a plugin. *)
Definition own_attribute (name : string) : bool :=
  existsb (String.eqb name) (instance_attributes ++ class_attributes ++ data_descriptors).

(** No parameter is bound under a name that has a meaning of its own. *)
Definition ordinary (parameters : list Param) : Prop :=
  Forall (fun parameter => own_attribute (attribute_name parameter) = false) parameters.

(** [__init__]: a new instance; the monkeypatch hook has no patches. *)
Definition __init__ (config : PythonConfig) (w : World) : State :=
  let i := mkInstance config None None None None ∅ None in
  if (STAGE_CI (w_settings w) || MOCK_CONNECTIONS (w_settings w))%bool
  then mkState (set_w_trace (cons (EvPrint "monkeypatch")) w) i
  else mkState w i.

(** [self.<name>] for an attribute of the instance: the value that [setattr]
    bound under [name], else the object that the instance holds; an
    [AttributeError] when it has neither. *)
Definition instance_attribute {A} (class_name name : string) (slot : Instance -> option A)
    : M (attribute A) :=
  b <- get_rebound ;;
  match rebound_lookup name b with
  | Some (Some v) => ret (Bound v)
  | Some None => raise (no_instance_attribute class_name name)
  | None =>
      i <- get_self ;;
      match slot i with
      | Some a => ret (Held a)
      | None => raise (no_instance_attribute class_name name)
      end
  end.

(** [x.<member>] for a member that the objects of [x]'s kind have and the
    values of parameters have not. *)
Definition member_of {A} (member : string) (x : attribute A) : M A :=
  match x with
  | Held a => ret a
  | Bound v => raise (no_attribute v member)
  end.

(** [self.<method>(...)]: a value bound under the name of the method is found
    before the method of the class, and is not callable. *)
Definition method {A} (name : string) (body : M A) : M A :=
  b <- get_rebound ;;
  match rebound_lookup name b with
  | Some (Some v) => raise (not_callable v)
  | _ => body
  end.

(** [self._config] *)
Definition _config (class_name : string) : M (attribute PythonConfig) :=
  instance_attribute class_name "_config" (fun i => Some (i_config i)).

(** [name] *)
Definition name (cls : PluginClass) : M string :=
  config <- _config (cls_name cls) ;;
  match config with
  | Held c => ret (cfg_name c)
  | Bound (VFile f) => ret (f_name f)
  | Bound v => raise (no_attribute v "name")
  end.

(** [job_id]: the property reads [self._job_id]. *)
Definition job_id (class_name : string) : M value :=
  x <- instance_attribute class_name "_job_id" i_job_id ;;
  match x with
  | Held z => ret (VInt z)
  | Bound v => ret v
  end.

(** [self.job_id = value]: the setter assigns [self._job_id]. *)
Definition set_job_id (v : Z) : M unit :=
  modify_rebound (rebound_remove "_job_id") ;;;
  modify_self (set_i_job_id (Some v)).

(** [cached_property _job]: what the instance dictionary has under [_job],
    else [Job.objects.get(pk=self.job_id)], which is then kept there. *)
Definition _job (class_name : string) : M (attribute Job) :=
  b <- get_rebound ;;
  i <- get_self ;;
  let cached :=
    match rebound_lookup "_job" b with
    | Some (Some v) => Some (Bound v)
    | Some None => None
    | None => option_map Held (i_job i)
    end in
  match cached with
  | Some x => ret x
  | None =>
      pk <- job_id class_name ;;
      j <- Job_objects_get pk ;;
      modify_rebound (rebound_remove "_job") ;;;
      modify_self (set_i_job (Some j)) ;;;
      ret (Held j)
  end.

(** [cached_property _user]: [self._job.user] on first use. *)
Definition _user (class_name : string) : M (attribute User) :=
  b <- get_rebound ;;
  i <- get_self ;;
  let cached :=
    match rebound_lookup "_user" b with
    | Some (Some v) => Some (Bound v)
    | Some None => None
    | None => option_map Held (i_user i)
    end in
  match cached with
  | Some x => ret x
  | None =>
      x <- _job class_name ;;
      j <- member_of "user" x ;;
      modify_rebound (rebound_remove "_user") ;;;
      modify_self (set_i_user (Some (j_user j))) ;;;
      ret (Held (j_user j))
  end.

(** [self.report]; an [AttributeError] before [start] has set it. *)
Definition report (class_name : string) : M (attribute Report) :=
  instance_attribute class_name "report" i_report.

(** [self.report = r] *)
Definition set_report (r : Report) : M unit :=
  modify_rebound (rebound_remove "report") ;;;
  modify_self (set_i_report (Some r)).

(** [self.report.<member>], read. *)
Definition report_member (class_name member : string) : M Report :=
  x <- report class_name ;;
  member_of member x.

(** [self.report.<member> = ...]: [f] is the change of the report and [ev]
    its step. A [File] takes any attribute; the other values take none. *)
Definition set_report_member (class_name member : string) (f : Report -> Report) (ev : Event)
    : M unit :=
  x <- report class_name ;;
  match x with
  | Held r => modify_self (set_i_report (Some (f r))) ;;; emit ev
  | Bound (VFile _) => ret tt
  | Bound v => raise (no_attribute v member)
  end.

(** [self.report.save(update_fields=...)] *)
Definition report_save (class_name : string) (update_fields : option (list string)) : M unit :=
  r <- report_member class_name "save" ;;
  Report_save r update_fields.

(** [__str__], for an instance whose [_job_id] is the one [job_id.setter]
    assigned, if any. *)
Definition __str__ (cls : PluginClass) (i : Instance) : string :=
  match i_job_id i with
  | Some v => "(" ++ cls_name cls ++ ", job: #" ++ str_of_Z v ++ ")"
  | None => cls_name cls
  end.

(** [str(self)], as the f-strings write it: [__str__], whose [except
    AttributeError] gives the name of the class alone when [self.job_id]
    fails. *)
Definition str_self (cls : PluginClass) : M string :=
  b <- get_rebound ;;
  i <- get_self ;;
  match rebound_lookup "_job_id" b with
  | Some (Some v) => ret ("(" ++ cls_name cls ++ ", job: #" ++ py_str v ++ ")")%string
  | Some None => ret (cls_name cls)
  | None => ret (__str__ cls i)
  end.

Fixpoint for_each {A} (l : list A) (body : A -> M unit) : M unit :=
  match l with
  | [] => ret tt
  | x :: l' => body x ;;; for_each l' body
  end.

(** [self.__dict__ = d]: the instance has the entries of [d] and no other.
    An entry under the name of a property or of [__class__], [__dict__],
    [__weakref__] is never found, and is left out. Of two entries with one
    key the first counts. *)
Definition replace_dict (d : list (string * value)) : M unit :=
  modify_self
    (set_i_attrs
       (fun _ => list_to_map (List.filter (fun kv => negb (own_attribute (fst kv))) d))) ;;;
  modify_rebound
    (fun _ =>
       List.map (fun kv => (fst kv, Some (snd kv)))
                (List.filter
                   (fun kv => own_attribute (fst kv)
                              && negb (existsb (String.eqb (fst kv)) data_descriptors)) d)
       ++ List.map (fun n => (n, None)) instance_attributes).

(** [setattr(self, name, v)] for the value [v] of a parameter. The property
    [name] has no setter; [job_id] has one, which assigns [_job_id];
    [__class__] takes classes only, [__dict__] dictionaries only, and
    [__weakref__] nothing. Any other name is bound in the instance
    dictionary. *)
Definition setattr (cls : PluginClass) (name : string) (v : value) : M unit :=
  if String.eqb name "name" then
    raise (AttributeError ("property 'name' of '" ++ cls_name cls
                           ++ "' object has no setter")%string)
  else if String.eqb name "__class__" then
    raise (TypeError ("__class__ must be set to a class, not '" ++ type_name v
                      ++ "' object")%string)
  else if String.eqb name "__weakref__" then
    raise (AttributeError "attribute '__weakref__' of 'Plugin' objects is not writable")
  else if String.eqb name "__dict__" then
    match v with
    | VDict d => replace_dict d
    | _ => raise (TypeError ("__dict__ must be set to a dictionary, not a '"
                             ++ type_name v ++ "'")%string)
    end
  else if String.eqb name "job_id" then modify_rebound (rebind "_job_id" v)
  else if own_attribute name then modify_rebound (rebind name v)
  else modify_self (set_i_attrs <[name := v]>).

(** The body of the loop of [config]: [setattr] and the debug line. *)
Definition bind_parameter (cls : PluginClass) (parameter : Param) : M unit :=
  setattr cls (attribute_name parameter) (p_value parameter) ;;;
  emit (EvLog DEBUG ("Adding to " ++ cls_name cls ++ " param " ++ attribute_name parameter
                     ++ " with value {} ")%string [p_value parameter]).

(** What the Parameter Store answers for a user. Modelled from the spec for a
    value that is no user: [resolveParameters(config, user, runtimeOverrides)]
    takes a user, and is taken to refuse anything else. *)
Definition read_configured_params (c : PythonConfig) (user : attribute User)
    (runtime_configuration : list (string * value)) : M (list Param) :=
  match user with
  | Held u => outcome (cfg_read_configured_params c u runtime_configuration)
  | Bound v => raise (TypeError ("'" ++ type_name v ++ "' object is not a user")%string)
  end.

Definition config (cls : PluginClass) (runtime_configuration : list (string * value)) : M unit :=
  x <- _config (cls_name cls) ;;
  c <- member_of "read_configured_params" x ;;
  u <- _user (cls_name cls) ;;
  parameters <- read_configured_params c u runtime_configuration ;;
  modify_rebound (rebound_remove "_Plugin__parameters") ;;;
  modify_self (set_i_parameters (Some parameters)) ;;;
  for_each parameters (bind_parameter cls).


Definition after_run (class_name : string) : M unit :=
  t <- now ;;
  set_report_member class_name "end_time" (set_rep_end_time (Some t)) (EvSetEndTime t) ;;;
  report_save class_name None.

Definition encode_item (n : value) : value :=
  match n with
  | VFile f => VStr (Base64.decode (Base64.b64encode (f_data f)))
  | VBytes b => VStr (Base64.decode (Base64.b64encode b))
  | _ => n
  end.

Definition after_run_success (class_name : string) (content : value) : M unit :=
  let report_content :=
    match content with
    | VList l => VList (map encode_item l)
    | _ => content
    end in
  set_report_member class_name "report" (set_rep_report report_content)
                    (EvSetReport report_content) ;;;
  report_member class_name "STATUSES" ;;;
  set_report_member class_name "status" (set_rep_status SUCCESS) (EvSetStatus SUCCESS) ;;;
  report_save class_name (Some ["status"; "report"]).

(** [get_error_message], for an instance [i] whose [_job_id] is its own and
    a class whose [config_model] is not hidden by the instance. *)
Definition get_error_message (cls : PluginClass) (i : Instance) (err : exception)
    (is_base_err : bool) : string :=
  __str__ cls i ++ "."
  ++ " " ++ (if is_base_err then "Unexpected error" else cls_config_model_name cls ++ " error")
  ++ ":" ++ " '" ++ exc_str err ++ "'".

(** [self.config_model.__name__] *)
Definition config_model_name (cls : PluginClass) : M string :=
  b <- get_rebound ;;
  match rebound_lookup "config_model" b with
  | Some (Some v) => raise (no_attribute v "__name__")
  | _ => ret (cls_config_model_name cls)
  end.

(** The body of [get_error_message]: the f-string, from left to right. *)
Definition error_message (cls : PluginClass) (err : exception) (is_base_err : bool)
    : M string :=
  s <- str_self cls ;;
  kind <- (if is_base_err then ret "Unexpected error"
           else m <- config_model_name cls ;; ret (m ++ " error")%string) ;;
  ret (s ++ "." ++ " " ++ kind ++ ":" ++ " '" ++ exc_str err ++ "'")%string.

Definition log_error (cls : PluginClass) (e : exception) : M unit :=
  exceptions <- method "get_exceptions_to_catch" (ret (cls_get_exceptions_to_catch cls)) ;;
  if isinstance_any e (exceptions ++ [SoftTimeLimitExceeded; HTTPError])
  then
    error_message <- method "get_error_message" (error_message cls e false) ;;
    emit (EvLog ERROR error_message [])
  else
    emit EvPrintExc ;;;
    error_message <- method "get_error_message" (error_message cls e true) ;;
    emit (EvLog EXCEPTION error_message []).

(** [self.__parameters]; an [AttributeError] before [config] has bound it. *)
Definition parameters (class_name : string) : M (attribute (list Param)) :=
  instance_attribute class_name "_Plugin__parameters" i_parameters.

(** [self.__parameters.filter(name__contains="api_key").first()] *)
Definition first_api_key (ps : list Param) : option Param :=
  head (List.filter (fun p => contains "api_key" (p_name p)) ps).

(** The condition under which the organization is disabled:
    [not api_key_parameter or api_key_parameter.is_from_org or
     (not api_key_parameter.required and not api_key_parameter.value)]. *)
Definition disable_condition (api_key_parameter : option Param) : bool :=
  match api_key_parameter with
  | None => true
  | Some p => p_is_from_org p || (negb (p_required p) && negb (truthy (p_value p)))
  end.

Definition disable_for_rate_limit (cls : PluginClass) : M unit :=
  s <- str_self cls ;;
  emit (EvLog INFO ("Trying to disable for rate limit " ++ s)%string []) ;;;
  x <- _user (cls_name cls) ;;
  u <- member_of "has_membership" x ;;
  match membership u with
  | Some organization =>
      c <- _config (cls_name cls) ;;
      member_of "get_or_create_org_configuration" c ;;;
      org_configuration <- get_or_create_org_configuration organization ;;
      match rate_limit_timeout org_configuration with
      | Some _ =>
          x <- parameters (cls_name cls) ;;
          ps <- member_of "filter" x ;;
          let api_key_parameter := first_api_key ps in
          if disable_condition api_key_parameter
          then OrgConfiguration_disable_for_rate_limit organization org_configuration
          else emit (EvLog WARNING
                       ("Not disabling " ++ s ++ " because api key used is personal")%string [])
      | None =>
          emit (EvLog WARNING
                  ("You are trying to disable " ++ s
                   ++ " for rate limit without specifying a timeout.")%string [])
      end
  | None =>
      emit (EvLog INFO ("User " ++ username u ++ " is not in organization.")%string [])
  end.

(** [isinstance(e, HTTPError) and (hasattr(e, "response") and
     hasattr(e.response, "status_code") and e.response.status_code == 429)] *)
Definition is_rate_limit (e : exception) : bool :=
  isinstance e HTTPError &&
  match exc_response e with
  | ResponseStatus c => Z.eqb c 429
  | _ => false
  end.

Definition after_run_failed (cls : PluginClass) (e : exception) : M unit :=
  r <- report_member (cls_name cls) "errors" ;;
  modify_self (set_i_report (Some (set_rep_errors (rep_errors r ++ [exc_str e]) r))) ;;;
  emit (EvAppendError (exc_str e)) ;;;
  report_member (cls_name cls) "STATUSES" ;;;
  set_report_member (cls_name cls) "status" (set_rep_status FAILED) (EvSetStatus FAILED) ;;;
  report_save (cls_name cls) (Some ["status"; "errors"]) ;;;
  (if is_rate_limit e
   then method "disable_for_rate_limit" (disable_for_rate_limit cls)
   else method "log_error" (log_error cls e)) ;;;
  w <- get_world ;;
  if STAGE_CI (w_settings w) then raise (Raised e) else ret tt.

(** What the Report Store answers for a job. Modelled from the spec for a
    value that is no job: [createEmptyReport(job, taskId, status=RUNNING)]
    takes a job, and is taken to refuse anything else. *)
Definition create_empty_report (job : attribute Job) (task_id : string) (status : Status)
    : M Report :=
  match job with
  | Held j => generate_empty_report j task_id status
  | Bound v => raise (ValueError ("'" ++ type_name v ++ "' object is not a job")%string)
  end.

(** Entry point: [before_run], [run], [after_run] in that order with
    exception handling. *)
Definition start (cls : PluginClass) (job_id : Z)
    (runtime_configuration : list (string * value)) (task_id : string) : M unit :=
  set_job_id job_id ;;;
  c <- _config (cls_name cls) ;;
  member_of "generate_empty_report" c ;;;
  j <- _job (cls_name cls) ;;
  r <- create_empty_report j task_id RUNNING ;;
  set_report r ;;;
  try_except_else_finally
    (method "config" (call "config" (config cls runtime_configuration)) ;;;
     method "before_run" (call "before_run" (cls_before_run cls)) ;;;
     method "run" (call "run" (cls_run cls)))
    except_Exception
    (fun e => method "after_run_failed" (call "after_run_failed" (after_run_failed cls e)))
    (fun _result =>
       method "after_run_success"
              (call "after_run_success" (after_run_success (cls_name cls) _result)))
    (method "after_run" (call "after_run" (cls_after_run cls))).

Definition _handle_exception (cls : PluginClass) (exc : exception) (is_base_err : bool)
    : M unit :=
  (if negb is_base_err then emit EvPrintExc else ret tt) ;;;
  error_message <- method "get_error_message" (error_message cls exc is_base_err) ;;
  emit (EvLog ERROR error_message []) ;;;
  r <- report_member (cls_name cls) "errors" ;;
  modify_self (set_i_report (Some (set_rep_errors (rep_errors r ++ [exc_str exc]) r))) ;;;
  emit (EvAppendError (exc_str exc)) ;;;
  report_member (cls_name cls) "STATUSES" ;;;
  set_report_member (cls_name cls) "status" (set_rep_status FAILED) (EvSetStatus FAILED).

(** ** Health check *)

(** [getattr(self, name)] for a name that has no meaning of its own:
    instance attributes, then class attributes. *)
Definition getattr (cls : PluginClass) (i : Instance) (name : string) : option value :=
  match i_attrs i !! name with
  | Some v => Some v
  | None => cls_attrs cls !! name
  end.

(** The loop of [_get_health_check_url]: the first parameter that is
    configured and has a truthy value. *)
Fixpoint first_configured (params : list Param) : option Param :=
  match params with
  | [] => None
  | param :: rest =>
      if negb (p_configured param) || negb (truthy (p_value param))
      then first_configured rest
      else Some param
  end.

Definition _get_health_check_url (cls : PluginClass) (user : option User) : M value :=
  x <- _config (cls_name cls) ;;
  c <- member_of "parameters" x ;;
  let params :=
    List.filter (fun p => icontains "url" (p_name p)) (cfg_annotated_parameters c user) in
  match first_configured params with
  | Some param =>
      s <- str_self cls ;;
      emit (EvLog INFO ("Url retrieved to verify is " ++ p_name param ++ " for " ++ s)%string
                  []) ;;;
      ret (p_value param)
  | None =>
      i <- get_self ;;
      match getattr cls i "url" with
      | Some v => if truthy v then ret v else ret VNone
      | None => ret VNone
      end
  end.

(** [url.startswith("http")]: defined on [str]; [bytes.startswith] rejects a
    [str] argument and the other values have no such method. *)
Definition startswith (url : value) (prefix : string) : M bool :=
  match url with
  | VStr s => ret (String.prefix prefix s)
  | VBytes _ => raise (TypeError "startswith first arg must be bytes or a tuple of bytes, not str")
  | _ => raise (no_attribute url "startswith")
  end.

Definition str_of_url (url : value) : string :=
  match url with VStr s => s | _ => "" end.

(** [requests.head(url, timeout=10, verify=False)] *)
Definition requests_head (url : string) : M (Z * string) :=
  w <- get_world ;;
  emit (EvHead url) ;;;
  match w_head w url with
  | HeadResponse c reason => ret (c, reason)
  | HeadRaises e => raise (Raised e)
  end.

(** [Response.raise_for_status()] *)
Definition raise_for_status (url : string) (status_code : Z) (reason : string) : M unit :=
  if (Z.leb 400 status_code && Z.ltb status_code 500)%bool then
    raise (Raised (mkHTTPError (str_of_Z status_code ++ " Client Error: " ++ reason
                                ++ " for url: " ++ url)%string (ResponseStatus status_code)))
  else if (Z.leb 500 status_code && Z.ltb status_code 600)%bool then
    raise (Raised (mkHTTPError (str_of_Z status_code ++ " Server Error: " ++ reason
                                ++ " for url: " ++ url)%string (ResponseStatus status_code)))
  else ret tt.

Definition health_check (cls : PluginClass) (user : option User) : M bool :=
  url <- method "_get_health_check_url" (_get_health_check_url cls user) ;;
  is_http <- (if truthy url then startswith url "http" else ret false) ;;
  if is_http then
    w <- get_world ;;
    if (STAGE_CI (w_settings w) || MOCK_CONNECTIONS (w_settings w))%bool then ret true
    else
      s <- str_self cls ;;
      emit (EvLog INFO ("healthcheck url " ++ str_of_url url ++ " for " ++ s)%string []) ;;;
      try_except_else_finally
        (response <- requests_head (str_of_url url) ;;
         let '(status_code, reason) := response in
         if (Z.leb 400 status_code && Z.leb status_code 408)%bool
         then ret (Some true)
         else raise_for_status (str_of_url url) status_code reason ;;; ret None)
        (except_classes [ConnectionError; Timeout; HTTPError])
        (fun e =>
           emit (EvLog INFO ("healthcheck failed: url " ++ str_of_url url ++ " for " ++ s
                             ++ ". Error: " ++ exc_str e)%string []) ;;;
           ret false)
        (fun returned => match returned with Some b => ret b | None => ret true end)
        (ret tt)
  else raise (NotImplementedError "").

End Plugin.

(** ** [api_app/engines_manager/tasks.py] *)
Module EnginesManager.

(** Modelled from the spec: [job.data_model.merge] is not in the sources. The
    spec: the payload is merged "using overwrite semantics (new keys replace,
    not append)", [append=False] "meaning overwrite-on-merge". With
    [append=True] a list is extended and anything else is replaced. *)
Definition merge_value (append : bool) (old new : value) : option value :=
  match append, old, new with
  | true, VList a, VList b => Some (VList (a ++ b))
  | _, _, _ => Some new
  end.

Definition merge (data_model other : gmap string value) (append : bool) : gmap string value :=
  union_with (merge_value append) data_model other.

(** [import_string(path)(job)] followed by [obj.run()]: [import_string]
    resolves a path to a module class, or raises; a module class, given the
    job, runs to a payload or raises. *)
Definition ModuleClass : Type := Job -> Result (gmap string value).

Definition execute_engine_module (import_string : string -> Result ModuleClass)
    (job_pk : Z) (path : string) (w : World) : Result unit * World :=
  match w_jobs w !! job_pk with
  | None => (Raise (DoesNotExist "Job matching query does not exist."), w)
  | Some job =>
      match import_string path with
      | Raise r => (Raise r, w)
      | Ok module_class =>
          match module_class job with
          | Raise r => (Raise r, w)
          | Ok module_result =>
              let job' := mkJob (j_pk job) (j_user job)
                                (merge (j_data_model job) module_result false) in
              (Ok tt, set_w_jobs <[job_pk := job']> w)
          end
      end
  end.

End EnginesManager.

(** ** Concrete plugins *)

(** A concrete plugin given by what its [before_run] and [run] do when
    called: return or raise. [after_run] is the one of [Plugin]. *)
Definition concrete_plugin (name config_model : string) (attrs : gmap string value)
    (exceptions_to_catch : list string)
    (before_run_outcome : Result unit) (run_outcome : Result value) : PluginClass :=
  mkPluginClass name config_model attrs exceptions_to_catch
                (outcome before_run_outcome) (outcome run_outcome) (Plugin.after_run name).

(** ** Counting the steps of an execution *)

Definition is_set_end_time (ev : Event) : bool :=
  match ev with EvSetEndTime _ => true | _ => false end.
Definition is_org_disable (ev : Event) : bool :=
  match ev with EvOrgDisable _ => true | _ => false end.

Definition count (P : Event -> bool) (evs : list Event) : nat :=
  length (List.filter P evs).

(** The events an execution from [s] to [s'] added to the trace. *)
Definition new_events (s s' : State) : list Event :=
  take (length (w_trace (st_world s')) - length (w_trace (st_world s)))
       (w_trace (st_world s')).

(** Events that are no step of the report's life cycle: log lines and the
    calls of [start] other than the one of [after_run]. *)
Definition noise (ev : Event) : bool :=
  match ev with
  | EvLog _ _ _ | EvPrintExc => true
  | EvCall m => negb (String.eqb m "after_run")
  | _ => false
  end.

(** The events of the [try] block of [start]: log lines and the calls of
    [config], [before_run] and [run]. *)
Definition preparation (ev : Event) : bool :=
  match ev with
  | EvLog _ _ _ => true
  | EvCall m => existsb (String.eqb m) ["config"; "before_run"; "run"]
  | _ => false
  end.

(** What the tail of [after_run_failed] may add. *)
Definition side (ev : Event) : bool := noise ev || is_org_disable ev.

(** [t'] extends [t] by events that all satisfy [P]. *)
Definition extends (P : Event -> bool) (t t' : list Event) : Prop :=
  exists evs, t' = evs ++ t /\ forallb P evs = true.

(** ** The states an execution of [start] goes through *)

(** The job [self._job] yields: the cached one, else the one the Job Store
    has under [job_id]. *)
Definition resolved_job (s : State) (job_id : Z) : option Job :=
  match i_job (st_self s) with
  | Some j => Some j
  | None => w_jobs (st_world s) !! job_id
  end.

(** The user [self._user] yields, once the job is [j]. *)
Definition resolved_user (s : State) (j : Job) : User :=
  match i_user (st_self s) with
  | Some u => u
  | None => j_user j
  end.

(** The empty report [start] creates in state [s]. *)
Definition created_report (s : State) (j : Job) (task_id : string) : Report :=
  mkReport (w_next_report_pk (st_world s)) (j_pk j) task_id RUNNING (VDict []) []
           (w_now (st_world s)) None.

(** The state in which [start] enters its [try] block. *)
Definition created (s : State) (job_id : Z) (j : Job) (task_id : string) : State :=
  let r := created_report s j task_id in
  mkState
    (set_w_trace (cons (EvReportCreated (rep_pk r)))
       (set_w_reports <[rep_pk r := r]>
          (set_w_next_report_pk (fun n => n + 1)
             (set_w_now (fun t => t + 1) (st_world s)))))
    (set_i_report (Some r)
       (set_i_job (Some j) (set_i_job_id (Some job_id) (st_self s)))).

(** The [try] block of [start]. *)
Definition try_body (cls : PluginClass) (runtime_configuration : list (string * value))
    : M value :=
  Plugin.method "config" (call "config" (Plugin.config cls runtime_configuration)) ;;;
  Plugin.method "before_run" (call "before_run" (cls_before_run cls)) ;;;
  Plugin.method "run" (call "run" (cls_run cls)).

(** The handlers of the [try] block of [start]: what runs between the [try]
    block and [after_run]. *)
Definition handlers (cls : PluginClass) (body : Result value) : M unit :=
  match body with
  | Ok _result =>
      Plugin.method "after_run_success"
        (call "after_run_success" (Plugin.after_run_success (cls_name cls) _result))
  | Raise r =>
      match except_Exception r with
      | Some e =>
          Plugin.method "after_run_failed"
            (call "after_run_failed" (Plugin.after_run_failed cls e))
      | None => raise r
      end
  end.


(** [self.after_run()], as [start] calls it. *)
Definition call_after_run (cls : PluginClass) : M unit :=
  Plugin.method "after_run" (call "after_run" (cls_after_run cls)).

(** What the [try] block of a concrete plugin ends with: the first exception
    of [config], [before_run], [run], else the result of [run]. *)
Definition body_result (config_outcome : Result (list Param))
    (before_run_outcome : Result unit) (run_outcome : Result value) : Result value :=
  match config_outcome with
  | Raise x => Raise x
  | Ok _ => match before_run_outcome with
            | Raise x => Raise x
            | Ok _ => run_outcome
            end
  end.

(** A state that differs from [s] in the trace, by [evs], and in the
    attributes [config] binds. *)
Definition configured (s : State) (evs : list Event) (u : User)
    (ps : option (list Param)) (f : gmap string value -> gmap string value) : State :=
  mkState (set_w_trace (app evs) (st_world s))
          (set_i_attrs f (set_i_parameters ps (set_i_user (Some u) (st_self s)))).

(** The tail of [after_run_failed], after the report is saved. *)
Definition failed_tail (cls : PluginClass) (e : exception) : M unit :=
  (if Plugin.is_rate_limit e
   then Plugin.method "disable_for_rate_limit" (Plugin.disable_for_rate_limit cls)
   else Plugin.method "log_error" (Plugin.log_error cls e)) ;;;
  w <- get_world ;;
  if STAGE_CI (w_settings w) then raise (Raised e) else ret tt.

(** The content [after_run_success] stores for the result [content]. *)
Definition stored_content (content : value) : value :=
  match content with
  | VList l => VList (map Plugin.encode_item l)
  | _ => content
  end.

(** The state [after_run_success] leaves. *)
Definition succeeded (s : State) (r row : Report) (content : value) : State :=
  mkState
    (set_w_trace (fun t => EvSave (rep_pk r) (Some ["status"; "report"])
                           :: EvSetStatus SUCCESS :: EvSetReport (stored_content content) :: t)
       (set_w_reports
          <[rep_pk r := set_rep_report (stored_content content) (set_rep_status SUCCESS row)]>
          (st_world s)))
    (set_i_report (Some (set_rep_status SUCCESS (set_rep_report (stored_content content) r)))
       (st_self s)).

(** The state in which [after_run_failed] has saved the report. *)
Definition failed (s : State) (r row : Report) (e : exception) : State :=
  mkState
    (set_w_trace (fun t => EvSave (rep_pk r) (Some ["status"; "errors"])
                           :: EvSetStatus FAILED :: EvAppendError (exc_str e) :: t)
       (set_w_reports
          <[rep_pk r := set_rep_errors (rep_errors r ++ [exc_str e]) (set_rep_status FAILED row)]>
          (st_world s)))
    (set_i_report (Some (set_rep_status FAILED (set_rep_errors (rep_errors r ++ [exc_str e]) r)))
       (st_self s)).

(** The state [Plugin.after_run] leaves. *)
Definition finalized (s : State) (r : Report) : State :=
  let r' := set_rep_end_time (Some (w_now (st_world s))) r in
  mkState
    (set_w_trace (fun t => EvSave (rep_pk r) None :: EvSetEndTime (w_now (st_world s)) :: t)
       (set_w_reports <[rep_pk r := r']> (set_w_now (fun t => t + 1) (st_world s))))
    (set_i_report (Some r') (st_self s)).

(** What [start] returns and the state it leaves, for a concrete plugin whose
    [try] block ended with [body] in state [s1], the empty report being [r0]. *)
Definition start_outcome (cls : PluginClass) (body : Result value) (s1 : State) (r0 : Report)
    : Result unit * State :=
  match body with
  | Ok v =>
      (Ok tt,
       finalized (mkState (set_w_trace (cons (EvCall "after_run"))
                             (st_world (succeeded
                                (mkState (set_w_trace (cons (EvCall "after_run_success"))
                                            (st_world s1)) (st_self s1)) r0 r0 v)))
                          (st_self (succeeded s1 r0 r0 v)))
                 (set_rep_status SUCCESS (set_rep_report (stored_content v) r0)))
  | Raise (Raised e) =>
      let '(res, s3) :=
        failed_tail cls e
          (failed (mkState (set_w_trace (cons (EvCall "after_run_failed")) (st_world s1))
                           (st_self s1)) r0 r0 e) in
      (res,
       finalized (mkState (set_w_trace (cons (EvCall "after_run")) (st_world s3)) (st_self s3))
                 (set_rep_status FAILED (set_rep_errors (rep_errors r0 ++ [exc_str e]) r0)))
  | Raise (RaisedBase c m) =>
      (Raise (RaisedBase c m),
       finalized (mkState (set_w_trace (cons (EvCall "after_run")) (st_world s1)) (st_self s1))
                 r0)
  end.

(** ** The statements about one execution, from state [s] to state [s'] *)








(** The number of disable actions of an execution from [s] to [s']. *)
Definition disable_invocations (s s' : State) : nat :=
  count is_org_disable (new_events s s').



(** A result paired with the store of a state. *)
Definition lift {A} (x : Result A * State) : Result A * Store := (fst x, intact (snd x)).

(** An event that is no disable action. *)
Definition quiet (ev : Event) : bool := negb (is_org_disable ev).

(** An exception that [setattr], or the call of a value, raises. *)
Definition collision {A} (res : Result A) : Prop :=
  exists msg, res = Raise (AttributeError msg) \/ res = Raise (TypeError msg).

(** ** Sample data *)

Module Sample.

Definition alice : User := mkUser "alice" (Some 10).
Definition bob : User := mkUser "bob" None.

Definition job7 : Job := mkJob 7 alice ∅.

Definition no_head (url : string) : HeadOutcome := HeadResponse 200 "OK".

Definition world (ci : bool) (orgs : gmap Z OrgConfiguration) : World :=
  mkWorld (mkSettings ci false) {[ 7 := job7 ]} ∅ 1 orgs 1000 no_head [].

Definition org3600 : gmap Z OrgConfiguration := {[ 10 := mkOrgConfiguration (Some 3600) false ]}.

Definition cfg (ps : Result (list Param)) : PythonConfig :=
  mkPythonConfig "X" (fun _ => []) (fun _ _ => ps).

Definition personal_key : Param :=
  mkParam "api_key_name" (VStr "secret") true true false true.
Definition org_key : Param :=
  mkParam "api_key_name" (VStr "secret") true true true true.

(** A parameter whose name is the name of an attribute of the plugin. *)
Definition report_param : Param :=
  mkParam "report" (VStr "weekly") false false false true.

Definition err429 : exception := mkHTTPError "429 Client Error" (ResponseStatus 429).
Definition domain_error : exception :=
  mkExc ["AnalyzerRunException"; "Exception"] "bad target" NoResponseAttr.

Definition plugin (r : Result value) : PluginClass :=
  concrete_plugin "X" "AnalyzerConfig" ∅ ["AnalyzerRunException"] (Ok tt) r.

(** Health check samples: a configured URL parameter, and two services. *)
Definition url_param : Param :=
  mkParam "url_key_name" (VStr "https://service.example") false true false true.

Definition probe_cfg (ps : list Param) : PythonConfig :=
  mkPythonConfig "X" (fun _ => ps) (fun _ _ => Ok ps).

Definition head405 (url : string) : HeadOutcome := HeadResponse 405 "Method Not Allowed".

Definition timeout_error : exception :=
  mkExc [Timeout; "requests.exceptions.RequestException"; "OSError"; "Exception"]
        "timed out" NoResponseAttr.

Definition head_timeout (url : string) : HeadOutcome := HeadRaises timeout_error.

Definition probe_state (ps : list Param) (head : string -> HeadOutcome) : State :=
  mkState (mkWorld (mkSettings false false) {[ 7 := job7 ]} ∅ 1 ∅ 1000 head [])
          (mkInstance (probe_cfg ps) None None None None ∅ None).

(** Aggregation samples: a job with a data model, and a module registry. *)
Definition job9 : Job :=
  mkJob 9 bob {[ "evaluation" := VStr "trusted"; "tags" := VList [VStr "old"] ]}.

Definition engine_result : gmap string value :=
  {[ "evaluation" := VStr "malicious" ]}.

Definition registry (path : string) : Result EnginesManager.ModuleClass :=
  if String.eqb path "api_app.engines_manager.engines.evaluation.EvaluationEngineModule"
  then Ok (fun _ => Ok engine_result)
  else Raise (ImportError path).

Definition engine_world : World :=
  mkWorld (mkSettings false false) {[ 9 := job9 ]} ∅ 1 ∅ 1000 no_head [].

(** A new instance in the sample world. *)
Definition initial (ci : bool) (orgs : gmap Z OrgConfiguration) (ps : Result (list Param))
    : State :=
  Plugin.__init__ (cfg ps) (world ci orgs).

Definition run_start (ci : bool) (orgs : gmap Z OrgConfiguration)
    (ps : Result (list Param)) (cls : PluginClass) (job_id : Z) : Result unit * Store :=
  Plugin.start cls job_id [] "task" (initial ci orgs ps).

End Sample.

From Stdlib Require OrderedTypeEx.
From Stdlib Require Import Sorted Permutation.

(** * Further code of the repository *)

(** ** More vocabulary for [class Plugin] *)

(** The test of [log_error]: [e] is an instance of one of the classes of
    [get_exceptions_to_catch()], of [SoftTimeLimitExceeded] or of [HTTPError]. *)
Definition expected_error (cls : PluginClass) (e : exception) : bool :=
  isinstance_any e (cls_get_exceptions_to_catch cls ++ [SoftTimeLimitExceeded; HTTPError]).

(** What [log_error] adds to the trace, most recent first. *)
Definition log_error_events (cls : PluginClass) (i : Instance) (e : exception) : list Event :=
  if expected_error cls e
  then [EvLog ERROR (Plugin.get_error_message cls i e false) []]
  else [EvLog EXCEPTION (Plugin.get_error_message cls i e true) []; EvPrintExc].

Definition is_head_request (ev : Event) : bool :=
  match ev with EvHead _ => true | _ => false end.
Definition is_save (ev : Event) : bool :=
  match ev with EvSave _ _ => true | _ => false end.

(** The user has no organization whose configuration has a rate-limit
    timeout: no membership, or a configuration with a null timeout. *)
Definition no_rate_limit_timeout (w : World) (u : User) : Prop :=
  membership u = None
  \/ exists org oc, membership u = Some org
                    /\ w_org_configs w !! org = Some oc
                    /\ rate_limit_timeout oc = None.

(** While the instance holds the report that [start] gave it, its dictionary
    has not been replaced, and [_user] has not been deleted from it. *)
Definition user_kept (b : Rebound) : Prop :=
  rebound_lookup "report" b = None -> rebound_lookup "_user" b <> Some None.

(** From [st] to [st'] no disable action was invoked, and the organization
    configurations and the cached user are as they were. *)
Definition undisturbed (st st' : Store) : Prop :=
  extends quiet (w_trace (st_world st)) (w_trace (st_world st'))
  /\ w_org_configs (st_world st') = w_org_configs (st_world st)
  /\ i_user (st_self st') = i_user (st_self st)
  /\ (user_kept (st_rebound st) -> user_kept (st_rebound st')).

(** Every store that satisfies [P] is taken by [m] to one that satisfies
    [Q], whether [m] returns or raises. *)
Definition leads {A} (P Q : Store -> Prop) (m : M A) : Prop :=
  forall st, P st -> Q (snd (m st)).

(** Since the trace was [t0] no disable action was invoked. *)
Definition quiet_since (t0 : list Event) (st : Store) : Prop :=
  extends quiet t0 (w_trace (st_world st)).

(** Since the trace was [t0] no disable action was invoked, and the
    organization configurations, the cached user and the rebound names are
    [orgs], [ou] and [b]. *)
Definition framed (t0 : list Event) (orgs : gmap Z OrgConfiguration) (ou : option User)
    (b : Rebound) (st : Store) : Prop :=
  quiet_since t0 st
  /\ w_org_configs (st_world st) = orgs
  /\ i_user (st_self st) = ou
  /\ st_rebound st = b.

(** ** Discovery of plugin classes: [all_subclasses] and [python_module] *)
Module Discovery.

(** [class_.__name__.startswith("MockUp")] *)
Definition is_mockup (class_ : PluginClass) : bool :=
  String.prefix "MockUp" (cls_name class_).

(** [sorted(..., key=lambda x: x.__name__)]: [sorted] is stable and compares
    the keys as strings, by code point. The stable sorted permutation of a
    list is unique; it is computed here by insertion, each class going before
    the first class that has already been placed and whose name is not
    smaller. *)
Fixpoint insert_by_name (class_ : PluginClass) (placed : list PluginClass)
    : list PluginClass :=
  match placed with
  | [] => [class_]
  | other :: rest =>
      if String.leb (cls_name class_) (cls_name other)
      then class_ :: other :: rest
      else other :: insert_by_name class_ rest
  end.

Definition sorted_by_name (classes : list PluginClass) : list PluginClass :=
  fold_right insert_by_name [] classes.

(** [all_subclasses], from [classes = cls.__subclasses__()] on: the imports
    of the files under [python_base_path] only decide what that list is. *)
Definition all_subclasses (classes : list PluginClass) : list PluginClass :=
  sorted_by_name (List.filter (fun class_ => negb (is_mockup class_)) classes).

(** [str.replace(old, new)]: the occurrences of [old], found from the left
    and not overlapping, become [new]. [skip] counts the characters of an
    occurrence still to pass over. *)
Fixpoint replace_from (old new : string) (skip : nat) (s : string) : string :=
  match s with
  | EmptyString => EmptyString
  | String c s' =>
      match skip with
      | S k => replace_from old new k s'
      | O =>
          if String.prefix old s
          then (new ++ replace_from old new (String.length old - 1) s')%string
          else String c (replace_from old new 0 s')
      end
  end.

(** With an empty [old], [new] goes before every character and at the end. *)
Fixpoint intersperse (new s : string) : string :=
  match s with
  | EmptyString => new
  | String c s' => (new ++ String c (intersperse new s'))%string
  end.

Definition replace (old new s : string) : string :=
  match old with
  | EmptyString => intersperse new s
  | _ => replace_from old new 0 s
  end.

(** [s[1:]] *)
Definition drop_first (s : string) : string :=
  match s with
  | EmptyString => EmptyString
  | String _ s' => s'
  end.

(** The [module] key of [python_module]: [cls.__module__] without the base
    path and without the character that follows it, then the class name. *)
Definition module_key (module python_base_path class_name : string) : string :=
  let valid_module := replace python_base_path "" module in
  let valid_module := drop_first valid_module in
  (valid_module ++ "." ++ class_name)%string.

(** [python_module]: [PythonModule.objects.get(module=..., base_path=...)]
    over the stored modules, keyed by module and base path. *)
Definition python_module (modules : gmap (string * string) Z)
    (module python_base_path class_name : string) : Result Z :=
  match modules !! (module_key module python_base_path class_name, python_base_path) with
  | Some pk => Ok pk
  | None => Raise (DoesNotExist "PythonModule matching query does not exist.")
  end.

End Discovery.

(** [a] does not come after [b] by name. *)
Definition name_le (a b : PluginClass) : Prop :=
  String.leb (cls_name a) (cls_name b) = true.

(** ** [api_app/analyzers_manager/observable_analyzers/bbot.py] *)
Module Bbot.

(** Python [dict] operations on the pairs of a [VDict]: [key in data],
    [data[key]] for a key that is there, and [data.get(key)]. *)
Fixpoint lookup (key : string) (d : list (string * value)) : option value :=
  match d with
  | [] => None
  | (k, v) :: d' => if String.eqb k key then Some v else lookup key d'
  end.

Definition has_key (key : string) (d : list (string * value)) : bool :=
  match lookup key d with Some _ => true | None => false end.

Definition get (key : string) (d : list (string * value)) : value :=
  match lookup key d with Some v => v | None => VNone end.

(** The dictionary [result] of [run]; its keys are fixed. *)
Record ScanResult := mkScanResult {
  scan_id : value;
  scan_name : value;
  target : value;
  preset : value;
  status : value;
  started_at : value;
  finished_at : value;
  duration : value;
  domains : list value;
  subdomains : list value;
  related_urls : list value
}.

Definition initial : ScanResult :=
  mkScanResult VNone VNone VNone VNone VNone VNone VNone VNone [] [] [].

(** [data] is a dict with the keys "id" and "name". *)
Definition is_scan (data : value) : bool :=
  match data with
  | VDict d => has_key "id" d && has_key "name" d
  | _ => false
  end.

(** The body of the loop over [scan.start()], for the [data] of one event. *)
Definition handle (result : ScanResult) (data : value) : ScanResult :=
  match data with
  | VDict d =>
      if has_key "id" d && has_key "name" d then
        match scan_id result with
        | VNone =>
            mkScanResult (get "id" d) (get "name" d) (get "target" d) (get "preset" d)
                         (get "status" d) (get "started_at" d)
                         (finished_at result) (duration result)
                         (domains result) (subdomains result) (related_urls result)
        | _ =>
            mkScanResult (scan_id result) (scan_name result) (target result) (preset result)
                         (status result) (started_at result)
                         (get "finished_at" d) (get "duration" d)
                         (domains result) (subdomains result) (related_urls result)
        end
      else if has_key "url" d then
        mkScanResult (scan_id result) (scan_name result) (target result) (preset result)
                     (status result) (started_at result)
                     (finished_at result) (duration result)
                     (domains result) (subdomains result) (related_urls result ++ [data])
      else result
  | VStr s =>
      if contains "." s then
        if String.prefix "ns-" s || String.prefix "alt" s then
          mkScanResult (scan_id result) (scan_name result) (target result) (preset result)
                       (status result) (started_at result)
                       (finished_at result) (duration result)
                       (domains result) (subdomains result ++ [data]) (related_urls result)
        else
          mkScanResult (scan_id result) (scan_name result) (target result) (preset result)
                       (status result) (started_at result)
                       (finished_at result) (duration result)
                       (domains result ++ [data]) (subdomains result) (related_urls result)
      else result
  | _ => result
  end.

(** [result] after the loop over the data of the events of the scan. *)
Definition collect (events : list value) : ScanResult :=
  fold_left handle events initial.

(** [result] as the dict it is, in the order of its keys. *)
Definition result_dict (result : ScanResult) : value :=
  VDict [("scan_id", scan_id result); ("scan_name", scan_name result);
         ("target", target result); ("preset", preset result);
         ("status", status result); ("started_at", started_at result);
         ("finished_at", finished_at result); ("duration", duration result);
         ("domains", VList (domains result)); ("subdomains", VList (subdomains result));
         ("related_urls", VList (related_urls result))].

(** [run], given what [json.dumps] does and the data of the events that
    [Scanner(...).start()] yields. *)
Definition run (json_dumps : value -> Result string) (events : list value) : Result value :=
  match json_dumps (result_dict (collect events)) with
  | Ok s => Ok (VStr s)
  | Raise r => Raise r
  end.

(** The three kinds of events that [run] keeps in a list. *)
Definition is_subdomain (data : value) : bool :=
  match data with
  | VStr s => contains "." s && (String.prefix "ns-" s || String.prefix "alt" s)
  | _ => false
  end.

Definition is_domain (data : value) : bool :=
  match data with
  | VStr s => contains "." s && negb (String.prefix "ns-" s || String.prefix "alt" s)
  | _ => false
  end.

Definition is_related_url (data : value) : bool :=
  match data with
  | VDict d => negb (has_key "id" d && has_key "name" d) && has_key "url" d
  | _ => false
  end.

(** What [result] says of the start of the scan, and of its end. *)
Definition metadata (result : ScanResult) : list value :=
  [scan_id result; scan_name result; target result; preset result;
   status result; started_at result].

Definition ending (result : ScanResult) : list value :=
  [finished_at result; duration result].

Definition started_by (d : list (string * value)) : list value :=
  [get "id" d; get "name" d; get "target" d; get "preset" d;
   get "status" d; get "started_at" d].

Definition ended_by (d : list (string * value)) : list value :=
  [get "finished_at" d; get "duration" d].

End Bbot.

(** ** More sample data *)
Module SampleExtra.

(** An instance whose report is RUNNING and has its row. *)
Definition running_report : Report :=
  mkReport 1 7 "task" RUNNING (VDict []) [] 1000 None.

Definition reported (ci : bool) : State :=
  mkState
    (mkWorld (mkSettings ci false) {[ 7 := Sample.job7 ]} {[ 1 := running_report ]} 2
             Sample.org3600 1001 Sample.no_head [])
    (mkInstance (Sample.cfg (Ok [])) (Some 7) (Some Sample.job7) (Some Sample.alice)
                (Some []) ∅ (Some running_report)).

Definition soft_time_limit : exception :=
  mkExc [SoftTimeLimitExceeded; "Exception"] "SoftTimeLimitExceeded()" NoResponseAttr.

Definition key_error : exception :=
  mkExc ["KeyError"; "LookupError"; "Exception"] "'field'" NoResponseAttr.

(** A probe under [MOCK_CONNECTIONS]. *)
Definition probe_mocked : State :=
  mkState (mkWorld (mkSettings false true) {[ 7 := Sample.job7 ]} ∅ 1 ∅ 1000
                   Sample.head_timeout [])
          (mkInstance (Sample.probe_cfg [Sample.url_param]) None None None None ∅ None).

End SampleExtra.

(** [url and url.startswith("http")] holds: a [str] that starts with "http". *)
Definition http_url (url : value) : bool :=
  match url with
  | VStr s => String.prefix "http" s
  | _ => false
  end.

(** [settings.STAGE_CI or settings.MOCK_CONNECTIONS] *)
Definition mocked (w : World) : bool :=
  STAGE_CI (w_settings w) || MOCK_CONNECTIONS (w_settings w).
(** * Properties *)

Lemma extends_refl P t : extends P t t.
Proof. exists []. split; reflexivity. Qed.

Lemma extends_cons P ev t t' : P ev = true -> extends P t t' -> extends P t (ev :: t').
Proof.
  intros Hev (evs & -> & Hall). exists (ev :: evs). split; [reflexivity|].
  simpl. rewrite Hev, Hall. reflexivity.
Qed.

Lemma count_app P l1 l2 : count P (l1 ++ l2) = (count P l1 + count P l2)%nat.
Proof. unfold count. rewrite List.filter_app, length_app. reflexivity. Qed.

Lemma count_none (P Q : Event -> bool) evs :
  (forall ev, Q ev = true -> P ev = false) -> forallb Q evs = true -> count P evs = 0%nat.
Proof.
  intros HQP. unfold count. induction evs as [|ev evs IH]; simpl; [reflexivity|].
  intros [Hev Hall]%andb_prop. rewrite (HQP ev Hev). apply IH, Hall.
Qed.

Lemma new_events_app s s' evs :
  w_trace (st_world s') = evs ++ w_trace (st_world s) -> new_events s s' = evs.
Proof.
  intros H. unfold new_events. rewrite H, length_app.
  replace (length evs + length (w_trace (st_world s)) - length (w_trace (st_world s)))%nat
    with (length evs) by lia.
  apply take_app_length.
Qed.

(** ** Sanity checks of the library models *)

Example b64_Man :
  Base64.decode (Base64.b64encode (Base64.bytes_of_string "Man")) = "TWFu".
Proof. reflexivity. Qed.
Example b64_Ma :
  Base64.decode (Base64.b64encode (Base64.bytes_of_string "Ma")) = "TWE=".
Proof. reflexivity. Qed.
Example b64_M :
  Base64.decode (Base64.b64encode (Base64.bytes_of_string "M")) = "TQ==".
Proof. reflexivity. Qed.
Example b64_hello :
  Base64.decode (Base64.b64encode (Base64.bytes_of_string "hello world"))
  = "aGVsbG8gd29ybGQ=".
Proof. reflexivity. Qed.
Example b64_high_bytes :
  Base64.decode (Base64.b64encode [xff; xfe; xfd; xfb; xf0]) = "//79+/A=".
Proof. reflexivity. Qed.
Example b64_zero : Base64.decode (Base64.b64encode [x00]) = "AA==".
Proof. reflexivity. Qed.
Example str_of_Z_7 : str_of_Z 7 = "7".
Proof. reflexivity. Qed.
Example str_of_Z_neg : str_of_Z (-12) = "-12".
Proof. reflexivity. Qed.
Example contains_api_key : contains "api_key" "_api_key_name" = true.
Proof. reflexivity. Qed.
Example contains_case : contains "api_key" "API_KEY" = false.
Proof. reflexivity. Qed.
Example icontains_url : icontains "url" "base_URL" = true.
Proof. reflexivity. Qed.

(** ** Tactics *)

Ltac unfold_setters :=
  unfold set_w_jobs, set_w_reports, set_w_next_report_pk, set_w_org_configs, set_w_now,
    set_w_trace, set_i_job_id, set_i_job, set_i_user, set_i_parameters, set_i_attrs,
    set_i_report in *;
  simpl in *.

Ltac unfold_monad :=
  unfold call, emit, outcome, bind, ret, raise, get_world, get_self, get_rebound,
    modify_world, modify_self, modify_rebound in *.

Ltac unfold_access :=
  unfold Plugin.report_save, Plugin.report_member, Plugin.set_report_member, Plugin.report,
    Plugin.set_report, Plugin.parameters, Plugin._config, Plugin.instance_attribute,
    Plugin.member_of, Plugin.method, Plugin.str_self, Plugin.config_model_name,
    Plugin.error_message in *.

Ltac unfold_plugin :=
  unfold Plugin.after_run, Plugin.after_run_success, Plugin.after_run_failed in *;
  unfold_access; unfold Report_save, now in *.

Ltac destruct_matches :=
  repeat match goal with
         | |- context [match ?x with _ => _ end] =>
             lazymatch x with
             | context [match _ with _ => _ end] => fail
             | _ => destruct x eqn:?; simpl
             end
         end.

Ltac solve_extends :=
  repeat (apply extends_cons; [reflexivity|]); apply extends_refl.

Ltac psimpl :=
  cbv beta iota delta
    [set_w_jobs set_w_reports set_w_next_report_pk set_w_org_configs set_w_now
     set_w_trace set_i_job_id set_i_job set_i_user set_i_parameters set_i_attrs
     set_i_report set_rep_status set_rep_report set_rep_errors set_rep_end_time
     st_world st_self store_state st_rebound intact
     w_settings w_jobs w_reports w_next_report_pk w_org_configs w_now w_head w_trace
     i_config i_job_id i_job i_user i_parameters i_attrs i_report
     rep_pk rep_job rep_task_id rep_status rep_report rep_errors rep_start_time
     rep_end_time rebound_lookup rebound_remove option_map] in *.


(** ** The steps of [start] *)

Lemma start_unfold cls job_id rc task_id (s : State) j :
  resolved_job s job_id = Some j ->
  Plugin.start cls job_id rc task_id s =
    try_except_else_finally
      (try_body cls rc)
      except_Exception
      (fun e => Plugin.method "after_run_failed"
                  (call "after_run_failed" (Plugin.after_run_failed cls e)))
      (fun _result =>
         Plugin.method "after_run_success"
           (call "after_run_success" (Plugin.after_run_success (cls_name cls) _result)))
      (call_after_run cls)
      (created s job_id j task_id).
Proof.
  intros Hj. destruct s as [[? ? ? ? ? ? ? ?] [? ? cached ? ? ? ?]].
  unfold resolved_job in Hj. simpl in Hj.
  unfold Plugin.start, Plugin.set_job_id, Plugin._job, Plugin.job_id, Plugin.create_empty_report,
    Plugin.set_report, Plugin._config, Plugin.instance_attribute, Plugin.member_of,
    Job_objects_get, generate_empty_report, now, created, created_report.
  unfold_monad. psimpl.
  destruct cached as [j'|].
  - injection Hj as ->. reflexivity.
  - psimpl. rewrite Hj. reflexivity.
Qed.

(** [setattr] under a name that has no meaning of its own binds the name. *)
Lemma existsb_eqb_false name (l : list string) :
  existsb (String.eqb name) l = false -> forall k, In k l -> String.eqb name k = false.
Proof.
  induction l as [|x l IH]; simpl; intros H k Hk; [contradiction|].
  apply orb_false_elim in H. destruct H as [Hx Hl].
  destruct Hk as [<-|Hk]; [exact Hx | exact (IH Hl k Hk)].
Qed.

Lemma own_attribute_false name k :
  Plugin.own_attribute name = false ->
  In k (Plugin.instance_attributes ++ Plugin.class_attributes ++ Plugin.data_descriptors) ->
  String.eqb name k = false.
Proof. intros H. apply existsb_eqb_false, H. Qed.

Lemma setattr_ordinary cls name v :
  Plugin.own_attribute name = false ->
  Plugin.setattr cls name v = modify_self (set_i_attrs <[name := v]>).
Proof.
  intros H. unfold Plugin.setattr.
  rewrite !(own_attribute_false name _ H) by (simpl; tauto).
  rewrite H. reflexivity.
Qed.

Lemma user_eq cn (s : State) j :
  i_job (st_self s) = Some j ->
  Plugin._user cn s =
    (Ok (Held (resolved_user s j)),
     mkState (st_world s) (set_i_user (Some (resolved_user s j)) (st_self s))).
Proof.
  intros Hj. destruct s as [w [? ? ? cached ? ? ?]]. simpl in Hj. subst.
  unfold Plugin._user, Plugin._job, Plugin.member_of, resolved_user. unfold_monad. psimpl.
  destruct cached as [u|]; reflexivity.
Qed.

Lemma preparation_noise evs : forallb preparation evs = true -> forallb noise evs = true.
Proof.
  induction evs as [|ev evs IH]; [reflexivity|]. simpl.
  intros [Hev Hall]%andb_prop. rewrite (IH Hall), andb_true_r.
  destruct ev; try discriminate Hev; [|reflexivity]. simpl in *.
  destruct (String.eqb method "after_run") eqn:E; [|reflexivity].
  apply String.eqb_eq in E. subst. discriminate Hev.
Qed.

Lemma bind_loop cls ps : Plugin.ordinary ps -> forall s : State,
  exists evs f,
    Plugin.for_each ps (Plugin.bind_parameter cls) s =
      (Ok tt, mkState (set_w_trace (app evs) (st_world s)) (set_i_attrs f (st_self s)))
    /\ forallb preparation evs = true.
Proof.
  induction 1 as [|p ps Hp Hps IH]; intros [w i].
  - exists [], (fun a => a). split; [|reflexivity].
    destruct w as [? ? ? ? ? ? ? ?], i as [? ? ? ? ? ? ?]. reflexivity.
  - simpl. unfold Plugin.bind_parameter at 1. rewrite (setattr_ordinary _ _ _ Hp).
    unfold_monad. psimpl.
    match goal with
    | |- context [Plugin.for_each ps _ (mkStore ?s1 [])] =>
        destruct (IH s1) as (evs & f & -> & Hn)
    end.
    eexists (evs ++ [_]), (fun a => f (<[_ := _]> a)). split.
    + destruct w as [? ? ? ? ? ? ? ?], i as [? ? ? ? ? ? ?]. simpl.
      unfold set_w_trace, set_i_attrs. simpl.
      rewrite <- app_assoc. reflexivity.
    + rewrite forallb_app, Hn. reflexivity.
Qed.

Lemma config_member {A} cn member (k : PythonConfig -> M A) (s : State) :
  bind (Plugin._config cn) (fun x => bind (Plugin.member_of member x) k) s
  = k (i_config (st_self s)) s.
Proof. destruct s as [w i]. reflexivity. Qed.

Lemma config_spec cls rc (s : State) j :
  i_job (st_self s) = Some j ->
  (forall ps,
      cfg_read_configured_params (i_config (st_self s)) (resolved_user s j) rc = Ok ps ->
      Plugin.ordinary ps) ->
  exists evs ops f,
    Plugin.config cls rc s =
      (match cfg_read_configured_params (i_config (st_self s)) (resolved_user s j) rc with
       | Ok _ => Ok tt
       | Raise x => Raise x
       end,
       configured s evs (resolved_user s j) ops f)
    /\ forallb preparation evs = true
    /\ (forall ps,
          cfg_read_configured_params (i_config (st_self s)) (resolved_user s j) rc = Ok ps ->
          ops = Some ps).
Proof.
  intros Hj Hord. unfold Plugin.config. rewrite config_member.
  unfold bind at 1. rewrite (user_eq _ s j Hj).
  set (u := resolved_user s j) in *. clearbody u.
  unfold Plugin.read_configured_params.
  unfold_monad. destruct s as [[? ? ? ? ? ? ? ?] [cfg ? ? ? ops0 ? ?]]. psimpl.
  destruct (cfg_read_configured_params cfg u rc) as [ps|x] eqn:Hco.
  - match goal with
    | |- context [Plugin.for_each ps _ (mkStore ?s1 [])] =>
        destruct (bind_loop cls ps (Hord ps eq_refl) s1) as (evs & f & Heq & Hn)
    end.
    psimpl. rewrite Heq.
    exists evs, (Some ps), f. repeat split; [exact Hn | congruence].
  - exists [], ops0, (fun a => a). repeat split. congruence.
Qed.

Lemma method_intact {A} name (body : M A) (s : State) : Plugin.method name body s = body s.
Proof. reflexivity. Qed.

Lemma method_call_intact {A} name (m : M A) (s : State) :
  Plugin.method name (call name m) s
  = m (intact (mkState (set_w_trace (cons (EvCall name)) (st_world s)) (st_self s))).
Proof. reflexivity. Qed.


(** A concrete plugin, fixed: its names, class attributes and allow-list,
    and what its [before_run] and [run] do. *)
Section ConcretePlugin.

Context (name cm : string) (attrs : gmap string value) (exs : list string).
Context (before_run_outcome : Result unit) (run_outcome : Result value).

Local Abbreviation plugin :=
  (concrete_plugin name cm attrs exs before_run_outcome run_outcome).

Lemma body_spec rc (s : State) j :
  i_job (st_self s) = Some j ->
  let config_outcome :=
    cfg_read_configured_params (i_config (st_self s)) (resolved_user s j) rc in
  (forall ps, config_outcome = Ok ps -> Plugin.ordinary ps) ->
  exists evs ops f,
    try_body plugin rc s =
      (body_result config_outcome before_run_outcome run_outcome,
       configured s evs (resolved_user s j) ops f)
    /\ forallb preparation evs = true
    /\ (forall ps, config_outcome = Ok ps -> ops = Some ps).
Proof.
  intros Hj co Hord. unfold try_body.
  unfold bind at 1. rewrite method_intact. unfold call at 1.
  set (s1 := mkState (set_w_trace (cons (EvCall "config")) (st_world s)) (st_self s)).
  destruct (config_spec plugin rc s1 j Hj Hord)
    as (evs & ops & f & Heq & Hn & Hps).
  assert (Hu : resolved_user s1 j = resolved_user s j) by reflexivity.
  rewrite Hu in *. change (i_config (st_self s1)) with (i_config (st_self s)) in *.
  fold co in Heq, Hps.
  assert (Hcall : forall (m : M unit), bind (emit (EvCall "config")) (fun _ => m) s = m s1).
  { intros m. reflexivity. }
  rewrite Hcall, Heq. clear Hcall.
  unfold body_result. destruct co as [ps|x].
  - cbv beta iota. unfold bind at 1. rewrite method_intact. unfold call at 1.
    unfold bind at 1. unfold emit at 1, modify_world at 1. unfold plugin at 1.
    cbv beta iota delta [cls_before_run concrete_plugin outcome].
    destruct before_run_outcome as [[]|x]; [destruct run_outcome as [v|x]|].
    + exists (EvCall "run" :: EvCall "before_run" :: evs ++ [EvCall "config"]), ops, f.
      split; [|split; [|exact Hps]].
      * destruct s as [[? ? ? ? ? ? ? ?] [? ? ? ? ? ? ?]].
        unfold configured, s1, Plugin.method, call. unfold_monad. unfold_setters.
        rewrite <- app_assoc. reflexivity.
      * simpl. rewrite forallb_app, Hn. reflexivity.
    + exists (EvCall "run" :: EvCall "before_run" :: evs ++ [EvCall "config"]), ops, f.
      split; [|split; [|exact Hps]].
      * destruct s as [[? ? ? ? ? ? ? ?] [? ? ? ? ? ? ?]].
        unfold configured, s1, Plugin.method, call. unfold_monad. unfold_setters.
        rewrite <- app_assoc. reflexivity.
      * simpl. rewrite forallb_app, Hn. reflexivity.
    + exists (EvCall "before_run" :: evs ++ [EvCall "config"]), ops, f.
      split; [|split; [|exact Hps]].
      * destruct s as [[? ? ? ? ? ? ? ?] [? ? ? ? ? ? ?]]. unfold configured, s1. unfold_setters.
        rewrite <- app_assoc. reflexivity.
      * simpl. rewrite forallb_app, Hn. reflexivity.
  - exists (evs ++ [EvCall "config"]), ops, f.
    split; [|split; [|exact Hps]].
    + destruct s as [[? ? ? ? ? ? ? ?] [? ? ? ? ? ? ?]]. unfold configured, s1. unfold_setters.
      rewrite <- app_assoc. reflexivity.
    + rewrite forallb_app, Hn. reflexivity.
Qed.

Lemma after_run_eq cn (s : State) r :
  i_report (st_self s) = Some r ->
  Plugin.after_run cn s = (Ok tt, finalized s r).
Proof.
  intros H. destruct s as [[? ? ? ? ? ? ? ?] [? ? ? ? ? ? ?]]. simpl in H. subst.
  unfold_plugin. unfold_monad. reflexivity.
Qed.

Lemma after_run_success_eq cn (s : State) r row content :
  i_report (st_self s) = Some r ->
  w_reports (st_world s) !! rep_pk r = Some row ->
  Plugin.after_run_success cn content s = (Ok tt, succeeded s r row content).
Proof.
  intros H Hrow. destruct s as [[? ? ? ? ? ? ? ?] [? ? ? ? ? ? ?]]. simpl in H, Hrow. subst.
  unfold_plugin. unfold_monad. unfold_setters. rewrite Hrow. reflexivity.
Qed.

Lemma after_run_failed_eq cls e (s : State) r row :
  i_report (st_self s) = Some r ->
  w_reports (st_world s) !! rep_pk r = Some row ->
  Plugin.after_run_failed cls e s = failed_tail cls e (failed s r row e).
Proof.
  intros H Hrow. destruct s as [[? ? ? ? ? ? ? ?] [? ? ? ? ? ? ?]]. simpl in H, Hrow. subst.
  unfold_plugin. unfold failed_tail. unfold_monad. unfold_setters. rewrite Hrow.
  reflexivity.
Qed.

(** The tail of [after_run_failed] leaves the report and its row alone, and
    adds only log lines and disable actions to the trace. *)
Lemma failed_tail_frame cls e (s : State) :
  exists res (s' : State),
    failed_tail cls e s = (res, s')
    /\ i_report (st_self s') = i_report (st_self s)
    /\ w_reports (st_world s') = w_reports (st_world s)
    /\ w_now (st_world s') = w_now (st_world s)
    /\ extends side (w_trace (st_world s)) (w_trace (st_world s')).
Proof.
  destruct s as [[? ? ? ? ? ? ? ?] [? ? ? ? ? ? ?]].
  unfold failed_tail, Plugin.disable_for_rate_limit, Plugin.log_error, Plugin._user,
    Plugin._job, Plugin.job_id, Job_objects_get,
    get_or_create_org_configuration, OrgConfiguration_disable_for_rate_limit.
  unfold_access. unfold_monad. unfold_setters.
  destruct_matches;
    (eexists; eexists (mkState _ _); split; [reflexivity|]; simpl; repeat split; solve_extends).
Qed.

(** [start] of a concrete plugin whose parameters have ordinary names, step
    by step. *)
Lemma start_summary job_id rc task_id (s : State) j :
  resolved_job s job_id = Some j ->
  let cls := plugin in
  let u := resolved_user s j in
  let co := cfg_read_configured_params (i_config (st_self s)) u rc in
  (forall ps, co = Ok ps -> Plugin.ordinary ps) ->
  exists evs ops f,
    forallb noise evs = true
    /\ forallb preparation evs = true
    /\ (forall ps, co = Ok ps -> ops = Some ps)
    /\ Plugin.start cls job_id rc task_id s =
         lift (start_outcome cls (body_result co before_run_outcome run_outcome)
                 (configured (created s job_id j task_id) evs u ops f)
                 (created_report s j task_id)).
Proof.
  intros Hj cls u co Hord. rewrite (start_unfold _ _ _ _ _ _ Hj).
  set (s0 := created s job_id j task_id).
  assert (Hj0 : i_job (st_self s0) = Some j) by reflexivity.
  destruct (body_spec rc s0 j Hj0 Hord) as (evs & ops & f & Hb & Hn & Hps).
  change (resolved_user s0 j) with u in *.
  change (i_config (st_self s0)) with (i_config (st_self s)) in *.
  fold co in Hps, Hb. fold cls in Hb.
  exists evs, ops, f. split; [exact (preparation_noise _ Hn)|].
  split; [exact Hn|]. split; [exact Hps|].
  unfold try_except_else_finally. rewrite Hb.
  set (s1 := configured s0 evs u ops f).
  set (r0 := created_report s j task_id).
  assert (Hrep : forall ev, i_report (st_self (mkState (set_w_trace (cons ev) (st_world s1))
                                                       (st_self s1))) = Some r0).
  { intros ev. reflexivity. }
  assert (Hrow : forall ev, w_reports (st_world (mkState (set_w_trace (cons ev) (st_world s1))
                                                         (st_self s1))) !! rep_pk r0 = Some r0).
  { intros ev. unfold s1, s0, r0, configured, created, created_report. psimpl.
    apply lookup_insert_eq. }
  unfold start_outcome, lift.
  destruct (body_result co before_run_outcome run_outcome) as [v|[e|c m]].
  - rewrite method_call_intact.
    rewrite (after_run_success_eq _ _ r0 r0 v (Hrep _) (Hrow _)).
    cbv beta iota. unfold call_after_run. rewrite method_call_intact. simpl cls_after_run.
    erewrite after_run_eq; [reflexivity|].
    reflexivity.
  - simpl except_Exception. cbv beta iota.
    rewrite method_call_intact.
    rewrite (after_run_failed_eq cls e _ r0 r0 (Hrep _) (Hrow _)).
    match goal with
    | |- context [failed_tail cls e (intact ?sf)] =>
        destruct (failed_tail_frame cls e sf) as (res & s3 & Ht & Hr3 & _); rewrite Ht
    end.
    cbv beta iota. unfold call_after_run. rewrite method_call_intact. simpl cls_after_run.
    erewrite after_run_eq; [reflexivity|].
    psimpl. rewrite Hr3. reflexivity.
  - simpl except_Exception. cbv beta iota.
    unfold call_after_run. rewrite method_call_intact. simpl cls_after_run.
    erewrite after_run_eq; [reflexivity|].
    reflexivity.
Qed.

End ConcretePlugin.

Lemma lift_fst {A} (x : Result A * State) : fst (lift x) = fst x.
Proof. reflexivity. Qed.


(** ** What [start_outcome] leaves behind, case by case *)



Lemma outcome_failed cls e s1 r0 :
  let sf := failed (mkState (set_w_trace (cons (EvCall "after_run_failed")) (st_world s1))
                            (st_self s1)) r0 r0 e in
  let x := start_outcome cls (Raise (Raised e)) s1 r0 in
  let rF := set_rep_end_time (Some (w_now (st_world s1)))
              (set_rep_status FAILED (set_rep_errors (rep_errors r0 ++ [exc_str e]) r0)) in
  fst x = fst (failed_tail cls e sf)
  /\ i_report (st_self (snd x)) = Some rF
  /\ w_reports (st_world (snd x)) !! rep_pk r0 = Some rF
  /\ w_trace (st_world (snd x)) =
       [EvSave (rep_pk r0) None; EvSetEndTime (w_now (st_world s1)); EvCall "after_run"]
       ++ w_trace (st_world (snd (failed_tail cls e sf)))
  /\ w_trace (st_world sf) =
       [EvSave (rep_pk r0) (Some ["status"; "errors"]); EvSetStatus FAILED;
        EvAppendError (exc_str e); EvCall "after_run_failed"] ++ w_trace (st_world s1)
  /\ extends side (w_trace (st_world sf)) (w_trace (st_world (snd (failed_tail cls e sf)))).
Proof.
  intros sf x rF. subst x. unfold start_outcome. fold sf.
  destruct (failed_tail_frame cls e sf) as (res & s3 & Ht & Hr3 & Hrows & Hnow & Hext).
  rewrite Ht. unfold finalized. psimpl. rewrite Hnow.
  repeat split; [apply lookup_insert_eq | exact Hext].
Qed.

(** ** Counting in the trace of [start] *)












Section ConcretePlugin.

Context (name cm : string) (attrs : gmap string value) (exs : list string).
Context (before_run_outcome : Result unit) (run_outcome : Result value).

Local Abbreviation plugin :=
  (concrete_plugin name cm attrs exs before_run_outcome run_outcome).

(** ** C1: terminal status and finalization *)


End ConcretePlugin.



(** A parameter named [report] takes the place of the report of the
    instance: [run] returns, both [after_run_success] and [after_run] fail on
    the string, and the row stays RUNNING without an end time. *)
Example report_parameter_hides_the_report :
  let s := Sample.initial false Sample.org3600 (Ok [Sample.report_param]) in
  let x := Plugin.start (Sample.plugin (Ok (VStr "clean"))) 7 [] "task" s in
  fst x = Raise (AttributeError "'str' object has no attribute 'end_time'")
  /\ (rep_status <$> w_reports (st_world (snd x)) !! 1) = Some RUNNING
  /\ (rep_end_time <$> w_reports (st_world (snd x)) !! 1) = Some None
  /\ count is_set_end_time (new_events s (snd x)) = 0%nat.
Proof. vm_compute. repeat split. Qed.

(** ** C2, C10: the success path *)








(** A bytes result is assigned as it is. *)
Example bytes_result_assigned :
  let s := Sample.initial false Sample.org3600 (Ok []) in
  let v := VBytes (Base64.bytes_of_string "Man") in
  let x := Plugin.start (Sample.plugin (Ok v)) 7 [] "task" s in
  (rep_report <$> i_report (st_self (snd x))) = Some v.
Proof. vm_compute. reflexivity. Qed.

(** ** C3: a declared domain error *)




(** ** C4, C5: the rate-limit circuit breaker *)






Lemma org_key_ordinary : Plugin.ordinary [Sample.org_key].
Proof. repeat constructor. Qed.





(** ** C7: the job lookup *)

(** C7. When [job_id] resolves to no job, [start] raises the lookup failure
    [Job.DoesNotExist] to its caller; the world is as before: no report is
    created or changed, and nothing is added to the trace, so neither the
    handlers of the [try] block nor [after_run] ran. *)
Theorem start_lookup_failure_propagates cls job_id rc task_id (s : State) :
  resolved_job s job_id = None ->
  let x := Plugin.start cls job_id rc task_id s in
  fst x = Raise (DoesNotExist "Job matching query does not exist.")
  /\ st_world (snd x) = st_world s
  /\ w_reports (st_world (snd x)) = w_reports (st_world s)
  /\ i_report (st_self (snd x)) = i_report (st_self s)
  /\ new_events s (snd x) = [].
Proof.
  intros Hj x. subst x. unfold resolved_job in Hj.
  destruct s as [[? ? ? ? ? ? ? ?] [? ? ? ? ? ? ?]]. psimpl.
  unfold Plugin.start, Plugin.set_job_id, Plugin._job, Plugin.job_id, Job_objects_get.
  unfold_access. unfold_monad. psimpl.
  match goal with H : match ?o with _ => _ end = None |- _ => destruct o; [discriminate|] end.
  psimpl. rewrite Hj. psimpl. cbv beta iota delta [fst snd]. psimpl.
  repeat split. unfold new_events. psimpl. rewrite Nat.sub_diag. reflexivity.
Qed.

Lemma start_lookup_failure_propagates_witness :
  let s := Sample.initial false Sample.org3600 (Ok []) in
  let x := Plugin.start (Sample.plugin (Ok VNone)) 8 [] "task" s in
  fst x = Raise (DoesNotExist "Job matching query does not exist.")
  /\ w_reports (st_world (snd x)) = w_reports (st_world s).
Proof.
  intros s x.
  assert (Hj : resolved_job s 8 = None) by (vm_compute; reflexivity).
  destruct (start_lookup_failure_propagates (Sample.plugin (Ok VNone)) 8 [] "task" s Hj)
    as (Hres & _ & Hrows & _).
  split; [exact Hres | exact Hrows].
Defined.

(** ** C8: exceptions of [before_run] and [after_run] *)

Lemma failed_tail_result cls e (s : State) u ps :
  i_user (st_self s) = Some u ->
  i_parameters (st_self s) = Some ps ->
  fst (failed_tail cls e s) =
    if STAGE_CI (w_settings (st_world s)) then Raise (Raised e) else Ok tt.
Proof.
  intros Hu Hps. destruct s as [[? ? ? ? ? ? ? ?] [? ? ? ? ? ? ?]]. psimpl. subst.
  unfold failed_tail, Plugin.disable_for_rate_limit, Plugin.log_error, Plugin._user,
    Plugin.parameters, Plugin.error_message, Plugin.config_model_name, Plugin.str_self,
    get_or_create_org_configuration, OrgConfiguration_disable_for_rate_limit.
  unfold_access. unfold_monad. psimpl. destruct_matches; reflexivity.
Qed.




(** ** C6: the health check *)

Lemma get_health_check_url_frame cls user (s : State) :
  exists v (s' : State),
    Plugin._get_health_check_url cls user s = (Ok v, s')
    /\ w_settings (st_world s') = w_settings (st_world s)
    /\ w_head (st_world s') = w_head (st_world s).
Proof.
  destruct s as [[? ? ? ? ? ? ? ?] [? ? ? ? ? ? ?]].
  unfold Plugin._get_health_check_url, Plugin.str_self. unfold_access. unfold_monad. psimpl.
  destruct_matches; do 2 eexists; (split; [reflexivity|split; reflexivity]).
Qed.

(** C6. [health_check(user)]: a probe URL whose HEAD request answers with a
    status from 400 to 408 is healthy; a probe URL whose HEAD request raises
    a connection error or a timeout is unhealthy; with no probe URL the
    outcome is [NotImplementedError], neither of the two. *)
Theorem health_check_outcomes cls user (s : State) :
  (forall url c reason,
      fst (Plugin._get_health_check_url cls user s) = Ok (VStr url) ->
      String.prefix "http" url = true ->
      w_head (st_world s) url = HeadResponse c reason ->
      400 <= c <= 408 ->
      fst (Plugin.health_check cls user s) = Ok true)
  /\ (forall url e,
      fst (Plugin._get_health_check_url cls user s) = Ok (VStr url) ->
      String.prefix "http" url = true ->
      STAGE_CI (w_settings (st_world s)) = false ->
      MOCK_CONNECTIONS (w_settings (st_world s)) = false ->
      w_head (st_world s) url = HeadRaises e ->
      isinstance e ConnectionError = true \/ isinstance e Timeout = true ->
      fst (Plugin.health_check cls user s) = Ok false)
  /\ (fst (Plugin._get_health_check_url cls user s) = Ok VNone ->
      fst (Plugin.health_check cls user s) = Raise (NotImplementedError "")
      /\ fst (Plugin.health_check cls user s) <> Ok true
      /\ fst (Plugin.health_check cls user s) <> Ok false).
Proof.
  destruct (get_health_check_url_frame cls user s) as (v & s' & Hget & Hset & Hhead).
  assert (Hm : Plugin.method "_get_health_check_url" (Plugin._get_health_check_url cls user) s
               = (Ok v, s')) by (rewrite method_intact; exact Hget).
  split; [|split].
  - intros url c reason Hv Hp Hh [Hlo Hhi].
    rewrite Hget in Hv. injection Hv as ->.
    unfold Plugin.health_check. unfold bind at 1. rewrite Hm. clear Hget Hm.
    destruct s' as [[? ? ? ? ? ? ? ?] [? ? ? ? ? ? ?]].
    destruct s as [[? ? ? ? ? ? ? ?] [? ? ? ? ? ? ?]]. psimpl. subst.
    assert (Ht : truthy (VStr url) = true) by (destruct url; [discriminate Hp | reflexivity]).
    rewrite Ht. unfold Plugin.startswith, Plugin.requests_head, Plugin.str_self,
      try_except_else_finally.
    unfold_access. unfold_monad. rewrite Hp. psimpl.
    match goal with |- context [(?a || ?b)%bool] => destruct (a || b)%bool end;
      [reflexivity|].
    psimpl. unfold Plugin.str_of_url. rewrite Hh.
    apply Z.leb_le in Hlo. apply Z.leb_le in Hhi. rewrite Hlo, Hhi. reflexivity.
  - intros url e Hv Hp Hci Hmock Hh Hcls.
    rewrite Hget in Hv. injection Hv as ->.
    unfold Plugin.health_check. unfold bind at 1. rewrite Hm. clear Hget Hm.
    destruct s' as [[? ? ? ? ? ? ? ?] [? ? ? ? ? ? ?]].
    destruct s as [[? ? ? ? ? ? ? ?] [? ? ? ? ? ? ?]]. psimpl. subst.
    assert (Ht : truthy (VStr url) = true) by (destruct url; [discriminate Hp | reflexivity]).
    rewrite Ht. unfold Plugin.startswith, Plugin.requests_head, Plugin.str_self,
      try_except_else_finally.
    unfold_access. unfold_monad. rewrite Hp. psimpl. rewrite Hci, Hmock.
    cbv beta iota delta [orb]. psimpl. unfold Plugin.str_of_url. rewrite Hh.
    assert (Hany : isinstance_any e [ConnectionError; Timeout; HTTPError] = true).
    { unfold isinstance_any. simpl existsb. destruct Hcls as [-> | ->];
        [reflexivity | apply orb_true_r]. }
    cbv beta iota delta [except_classes fst snd]. rewrite Hany. reflexivity.
  - intros Hv. rewrite Hget in Hv. simpl in Hv. injection Hv as Hv. subst v.
    assert (Hres : fst (Plugin.health_check cls user s) = Raise (NotImplementedError "")).
    { unfold Plugin.health_check. unfold bind at 1. rewrite Hm. reflexivity. }
    rewrite Hres. split; [reflexivity|]. split; discriminate.
Qed.

Lemma health_check_outcomes_witness :
  fst (Plugin.health_check (Sample.plugin (Ok VNone)) None
         (Sample.probe_state [Sample.url_param] Sample.head405)) = Ok true
  /\ fst (Plugin.health_check (Sample.plugin (Ok VNone)) None
            (Sample.probe_state [Sample.url_param] Sample.head_timeout)) = Ok false
  /\ fst (Plugin.health_check (Sample.plugin (Ok VNone)) None
            (Sample.probe_state [] Sample.head405)) = Raise (NotImplementedError "").
Proof.
  split; [|split].
  - apply (proj1 (health_check_outcomes (Sample.plugin (Ok VNone)) None
                    (Sample.probe_state [Sample.url_param] Sample.head405))
             "https://service.example" 405 "Method Not Allowed");
      [reflexivity | reflexivity | reflexivity | lia].
  - apply (proj1 (proj2 (health_check_outcomes (Sample.plugin (Ok VNone)) None
                           (Sample.probe_state [Sample.url_param] Sample.head_timeout)))
             "https://service.example" Sample.timeout_error);
      [reflexivity | reflexivity | reflexivity | reflexivity | reflexivity
      | right; reflexivity].
  - apply (proj2 (proj2 (health_check_outcomes (Sample.plugin (Ok VNone)) None
                           (Sample.probe_state [] Sample.head405)))).
    reflexivity.
Defined.
(** ** C9: the aggregation task *)

(** C9. [execute_engine_module(job_pk, path)] loads the job by its
    identifier, runs the module that [path] names, and merges the payload
    into the data model of the job with [append=False]: a key of the payload
    gets the payload's value, replacing the one it had, and the other keys
    keep theirs. *)
Theorem execute_engine_module_merges
    import_string job_pk path (w : World) job module_class (module_result : gmap string value) :
  w_jobs w !! job_pk = Some job ->
  import_string path = Ok module_class ->
  module_class job = Ok module_result ->
  let x := EnginesManager.execute_engine_module import_string job_pk path w in
  fst x = Ok tt
  /\ exists job',
       w_jobs (snd x) !! job_pk = Some job'
       /\ j_data_model job' = EnginesManager.merge (j_data_model job) module_result false
       /\ (forall k v, module_result !! k = Some v -> j_data_model job' !! k = Some v)
       /\ (forall k, module_result !! k = None ->
                     j_data_model job' !! k = j_data_model job !! k).
Proof.
  intros Hjob Himp Hrun x. subst x.
  unfold EnginesManager.execute_engine_module. rewrite Hjob, Himp, Hrun.
  split; [reflexivity|]. eexists. split; [apply lookup_insert_eq|].
  split; [reflexivity|]. cbn [j_data_model]. unfold EnginesManager.merge. split.
  - intros k v Hk. rewrite lookup_union_with, Hk.
    destruct (j_data_model job !! k); reflexivity.
  - intros k Hk. rewrite lookup_union_with, Hk.
    destruct (j_data_model job !! k); reflexivity.
Qed.

Lemma execute_engine_module_merges_witness :
  let x := EnginesManager.execute_engine_module Sample.registry 9
             "api_app.engines_manager.engines.evaluation.EvaluationEngineModule"
             Sample.engine_world in
  exists job',
    w_jobs (snd x) !! 9 = Some job'
    /\ j_data_model job' !! "evaluation" = Some (VStr "malicious")
    /\ j_data_model job' !! "tags" = Some (VList [VStr "old"]).
Proof.
  intros x.
  destruct (execute_engine_module_merges Sample.registry 9
              "api_app.engines_manager.engines.evaluation.EvaluationEngineModule"
              Sample.engine_world Sample.job9 (fun _ => Ok Sample.engine_result)
              Sample.engine_result)
    as (_ & job' & Hjob & _ & Hnew & Hold);
    [vm_compute; reflexivity | reflexivity | reflexivity |].
  exists job'. split; [exact Hjob|]. split.
  - apply Hnew. vm_compute. reflexivity.
  - rewrite Hold; vm_compute; reflexivity.
Defined.

(** ** The scenarios of the specification, evaluated *)

(** Job #7: one required personal API key, [run] raises HTTP 429. *)
Example scenario_personal_key :
  let s := Sample.initial false Sample.org3600 (Ok [Sample.personal_key]) in
  let x := Plugin.start (Sample.plugin (Raise (Raised Sample.err429))) 7 [] "task" s in
  fst x = Ok tt
  /\ (rep_status <$> i_report (st_self (snd x))) = Some FAILED
  /\ (rep_errors <$> i_report (st_self (snd x))) = Some ["429 Client Error"]
  /\ disable_invocations s (snd x) = 0%nat.
Proof. vm_compute. repeat split. Qed.

(** Job #8: timeout 3600, the API key is organization-sourced, HTTP 429. *)
Example scenario_org_key :
  let s := Sample.initial false Sample.org3600 (Ok [Sample.org_key]) in
  let x := Plugin.start (Sample.plugin (Raise (Raised Sample.err429))) 7 [] "task" s in
  disable_invocations s (snd x) = 1%nat
  /\ (org_disabled <$> w_org_configs (st_world (snd x)) !! 10) = Some true.
Proof. vm_compute. repeat split. Qed.

(** The organization has no timeout: a 429 disables nothing. *)
Example scenario_no_timeout :
  let orgs : gmap Z OrgConfiguration := {[ 10 := mkOrgConfiguration None false ]} in
  let s := Sample.initial false orgs (Ok [Sample.org_key]) in
  let x := Plugin.start (Sample.plugin (Raise (Raised Sample.err429))) 7 [] "task" s in
  disable_invocations s (snd x) = 0%nat.
Proof. vm_compute. reflexivity. Qed.

(** Strict mode: the exception of [run] is recorded, then raised again. *)
Example scenario_strict_mode :
  let s := Sample.initial true Sample.org3600 (Ok []) in
  let x := Plugin.start (Sample.plugin (Raise (Raised Sample.domain_error))) 7 [] "task" s in
  fst x = Raise (Raised Sample.domain_error)
  /\ (rep_status <$> i_report (st_self (snd x))) = Some FAILED.
Proof. vm_compute. repeat split. Qed.

(** * Further properties *)

(** ** [start] under any names of parameters *)

Lemma extends_trans P t1 t2 t3 : extends P t1 t2 -> extends P t2 t3 -> extends P t1 t3.
Proof.
  intros (e1 & -> & H1) (e2 & -> & H2). exists (e2 ++ e1). split.
  - apply app_assoc.
  - rewrite forallb_app, H1, H2. reflexivity.
Qed.

Lemma extends_weaken (P Q : Event -> bool) t t' :
  (forall ev, P ev = true -> Q ev = true) -> extends P t t' -> extends Q t t'.
Proof.
  intros HPQ (evs & -> & H). exists evs. split; [reflexivity|].
  apply forallb_forall. intros ev Hin. apply HPQ.
  rewrite forallb_forall in H. apply H, Hin.
Qed.

Lemma extends_count_quiet (s s' : State) :
  extends quiet (w_trace (st_world s)) (w_trace (st_world s')) ->
  disable_invocations s s' = 0%nat.
Proof.
  intros (evs & Htr & Hq). unfold disable_invocations.
  rewrite (new_events_app s s' evs Htr).
  apply (count_none is_org_disable quiet); [|exact Hq].
  intros ev H. unfold quiet in H. destruct (is_org_disable ev); [discriminate H|reflexivity].
Qed.

Lemma undisturbed_refl st : undisturbed st st.
Proof. repeat split; [apply extends_refl | tauto]. Qed.

Lemma undisturbed_trans st1 st2 st3 :
  undisturbed st1 st2 -> undisturbed st2 st3 -> undisturbed st1 st3.
Proof.
  intros (H1 & H2 & H3 & H4) (K1 & K2 & K3 & K4). repeat split.
  - eapply extends_trans; eassumption.
  - congruence.
  - congruence.
  - tauto.
Qed.

(** A replaced dictionary has an entry, or none, for [report]. *)
Lemma replaced_has_report (l : Rebound) :
  rebound_lookup "report" (l ++ List.map (fun n => (n, None)) Plugin.instance_attributes)
  <> None.
Proof.
  induction l as [|[k x] l IH]; [discriminate|].
  simpl. destruct (String.eqb k "report"); [discriminate | exact IH].
Qed.

Lemma collision_retype {A B} r : collision (@Raise A r) -> collision (@Raise B r).
Proof.
  intros (msg & [H|H]); injection H as ->; exists msg; [left|right]; reflexivity.
Qed.

Lemma collision_not_rate_limit e :
  collision (@Raise unit (Raised e)) -> Plugin.is_rate_limit e = false.
Proof.
  intros (msg & [H|H]); injection H as ->; reflexivity.
Qed.

Lemma setattr_undisturbed cls name v (st : Store) :
  let x := Plugin.setattr cls name v st in
  undisturbed st (snd x) /\ (fst x = Ok tt \/ collision (fst x)).
Proof.
  destruct st as [[w i] b]. unfold Plugin.setattr.
  destruct (String.eqb name "name");
    [split; [apply undisturbed_refl | right; eexists; left; reflexivity]|].
  destruct (String.eqb name "__class__");
    [split; [apply undisturbed_refl | right; eexists; right; reflexivity]|].
  destruct (String.eqb name "__weakref__");
    [split; [apply undisturbed_refl | right; eexists; left; reflexivity]|].
  destruct (String.eqb name "__dict__").
  { destruct v;
      try (split; [apply undisturbed_refl | right; eexists; right; reflexivity]).
    split; [|left; reflexivity].
    repeat split; [apply extends_refl|]. intros _ H. exfalso.
    exact (replaced_has_report _ H). }
  destruct (String.eqb name "job_id").
  { split; [|left; reflexivity]. repeat split; [apply extends_refl|]. intros H. exact H. }
  destruct (Plugin.own_attribute name).
  { split; [|left; reflexivity]. repeat split; [apply extends_refl|].
    unfold user_kept. simpl. intros H.
    destruct (String.eqb name "report"); [discriminate|].
    destruct (String.eqb name "_user"); [discriminate | exact H]. }
  split; [|left; reflexivity]. repeat split; [apply extends_refl | tauto].
Qed.

Lemma bind_parameter_undisturbed cls p (st : Store) :
  let x := Plugin.bind_parameter cls p st in
  undisturbed st (snd x) /\ (fst x = Ok tt \/ collision (fst x)).
Proof.
  unfold Plugin.bind_parameter, bind.
  destruct (setattr_undisturbed cls (attribute_name p) (p_value p) st) as (Hu & Hres).
  cbv zeta in *.
  destruct (Plugin.setattr cls (attribute_name p) (p_value p) st) as [[[]|r] st1].
  - split; [|left; reflexivity].
    eapply undisturbed_trans; [exact Hu|].
    destruct st1 as [[w i] b]. repeat split; [|tauto].
    apply extends_cons; [reflexivity | apply extends_refl].
  - split; [exact Hu | exact Hres].
Qed.

Lemma loop_undisturbed cls ps : forall st : Store,
  let x := Plugin.for_each ps (Plugin.bind_parameter cls) st in
  undisturbed st (snd x) /\ (fst x = Ok tt \/ collision (fst x)).
Proof.
  induction ps as [|p ps IH]; intros st.
  - split; [apply undisturbed_refl | left; reflexivity].
  - simpl Plugin.for_each. unfold bind at 1.
    destruct (bind_parameter_undisturbed cls p st) as (Hu & Hres). cbv zeta in *.
    destruct (Plugin.bind_parameter cls p st) as [[[]|r] st1].
    + destruct (IH st1) as (Hu' & Hres'). cbv zeta in *.
      split; [eapply undisturbed_trans; eassumption | exact Hres'].
    + split; [exact Hu | exact Hres].
Qed.

(** The entry of a method that only has an outcome. *)
Lemma method_call_outcome {A} name (o : Result A) (st : Store) :
  let x := Plugin.method name (call name (outcome o)) st in
  undisturbed st (snd x) /\ (fst x = o \/ collision (fst x)).
Proof.
  destruct st as [[w i] b]. unfold Plugin.method, call, outcome. unfold_monad.
  cbv beta iota delta [st_rebound].
  destruct (rebound_lookup name b) as [[v|]|];
    try (destruct o as [a|r]; (split; [|left; reflexivity]);
         (repeat split; [|tauto]);
         (apply extends_cons; [reflexivity | apply extends_refl])).
  split; [apply undisturbed_refl | right; eexists; right; reflexivity].
Qed.

(** [config], up to its loop. *)
Lemma config_unfold cls rc (s : State) j :
  i_job (st_self s) = Some j ->
  Plugin.config cls rc s =
    match cfg_read_configured_params (i_config (st_self s)) (resolved_user s j) rc with
    | Ok ps =>
        Plugin.for_each ps (Plugin.bind_parameter cls)
          (mkState (st_world s)
                   (set_i_parameters (Some ps)
                      (set_i_user (Some (resolved_user s j)) (st_self s))))
    | Raise r =>
        (Raise r, mkState (st_world s) (set_i_user (Some (resolved_user s j)) (st_self s)))
    end.
Proof.
  intros Hj. unfold Plugin.config. rewrite config_member.
  unfold bind at 1. rewrite (user_eq _ s j Hj).
  unfold Plugin.read_configured_params.
  unfold bind at 1. unfold outcome at 1. cbv beta iota.
  destruct s as [[? ? ? ? ? ? ? ?] [? ? ? ? ? ? ?]]. psimpl.
  destruct (cfg_read_configured_params _ _ rc) as [ps|r]; reflexivity.
Qed.

Lemma config_general cls rc (s : State) j :
  i_job (st_self s) = Some j ->
  let co := cfg_read_configured_params (i_config (st_self s)) (resolved_user s j) rc in
  let x := Plugin.config cls rc s in
  extends quiet (w_trace (st_world s)) (w_trace (st_world (snd x)))
  /\ w_org_configs (st_world (snd x)) = w_org_configs (st_world s)
  /\ i_user (st_self (snd x)) = Some (resolved_user s j)
  /\ user_kept (st_rebound (snd x))
  /\ (fst x = match co with Ok _ => Ok tt | Raise r => Raise r end \/ collision (fst x)).
Proof.
  intros Hj co x. subst x. rewrite (config_unfold cls rc s j Hj). fold co.
  destruct co as [ps|r].
  - match goal with
    | |- context [Plugin.for_each ps _ ?st] =>
        destruct (loop_undisturbed cls ps st) as ((Ht & Ho & Hu & Hk) & Hres);
        cbv zeta in *;
        destruct (Plugin.for_each ps (Plugin.bind_parameter cls) st) as [res st']
    end.
    cbn [fst snd] in *.
    split; [exact Ht|]. split; [exact Ho|]. split; [exact Hu|].
    split; [apply Hk; intros _; discriminate|].
    destruct res as [[]|r]; [left; reflexivity | right; destruct Hres; [discriminate|assumption]].
  - cbn [fst snd].
    split; [apply extends_refl|]. split; [reflexivity|]. split; [reflexivity|].
    split; [intros _; discriminate|]. left. reflexivity.
Qed.

Section AnyParameters.

Context (name cm : string) (attrs : gmap string value) (exs : list string).
Context (before_run_outcome : Result unit) (run_outcome : Result value).

Local Abbreviation plugin :=
  (concrete_plugin name cm attrs exs before_run_outcome run_outcome).

(** The [try] block, whatever the names of the parameters: it ends as the
    outcomes of its three steps say, or earlier, on a name that [setattr]
    refuses or on a method that a parameter has hidden. *)
Lemma try_body_general rc (s : State) j :
  i_job (st_self s) = Some j ->
  let co := cfg_read_configured_params (i_config (st_self s)) (resolved_user s j) rc in
  let x := try_body plugin rc s in
  extends quiet (w_trace (st_world s)) (w_trace (st_world (snd x)))
  /\ w_org_configs (st_world (snd x)) = w_org_configs (st_world s)
  /\ i_user (st_self (snd x)) = Some (resolved_user s j)
  /\ user_kept (st_rebound (snd x))
  /\ (fst x = body_result co before_run_outcome run_outcome \/ collision (fst x)).
Proof.
  intros Hj co x.
  set (s1 := mkState (set_w_trace (cons (EvCall "config")) (st_world s)) (st_self s)).
  assert (Hx : x = bind (Plugin.config plugin rc)
                     (fun _ => bind (Plugin.method "before_run"
                                       (call "before_run" (outcome before_run_outcome)))
                                 (fun _ => Plugin.method "run"
                                             (call "run" (outcome run_outcome)))) s1)
    by reflexivity.
  clearbody x.
  destruct (config_general plugin rc s1 j Hj) as (Ht & Ho & Hu & Hk & Hres).
  cbv zeta in *.
  change (resolved_user s1 j) with (resolved_user s j) in *.
  change (i_config (st_self s1)) with (i_config (st_self s)) in *.
  fold co in Hres.
  assert (Ht0 : extends quiet (w_trace (st_world s)) (w_trace (st_world s1))).
  { destruct s as [[? ? ? ? ? ? ? ?] ?]. apply extends_cons; [reflexivity|apply extends_refl]. }
  change (w_org_configs (st_world s1)) with (w_org_configs (st_world s)) in Ho.
  unfold bind at 1 in Hx.
  destruct (Plugin.config plugin rc s1) as [[[]|r] st1]; cbn [fst snd] in *.
  - destruct Hres as [Hco | (msg & [H|H])]; try discriminate H.
    destruct (method_call_outcome "before_run" before_run_outcome st1)
      as ((Ht1 & Ho1 & Hu1 & Hk1) & Hres1).
    cbv zeta in *. unfold bind at 1 in Hx.
    destruct (Plugin.method "before_run" _ st1) as [[[]|r] st2]; cbn [fst snd] in *.
    + destruct (method_call_outcome "run" run_outcome st2)
        as ((Ht2 & Ho2 & Hu2 & Hk2) & Hres2).
      cbv zeta in *.
      destruct (Plugin.method "run" _ st2) as [res st3]; subst x; cbn [fst snd] in *.
      split; [eauto using extends_trans|]. split; [congruence|]. split; [congruence|].
      split; [tauto|].
      destruct Hres2 as [-> | Hc]; [left | right; exact Hc].
      destruct co; [|discriminate Hco].
      destruct Hres1 as [<- | (msg & [H|H])]; try discriminate H. reflexivity.
    + subst x; cbn [fst snd].
      split; [eauto using extends_trans|]. split; [congruence|]. split; [congruence|].
      split; [tauto|].
      destruct Hres1 as [<- | Hc]; [left | right; exact (collision_retype _ Hc)].
      destruct co; [reflexivity | discriminate Hco].
  - subst x; cbn [fst snd].
    split; [eauto using extends_trans|]. split; [exact Ho|]. split; [exact Hu|].
    split; [exact Hk|].
    destruct Hres as [Hco | Hc]; [left | right; exact (collision_retype _ Hc)].
    destruct co; [discriminate Hco | injection Hco as ->; reflexivity].
Qed.

End AnyParameters.

(** ** What the handlers of [start] keep, whatever the store *)

Lemma leads_bind {A B} (P R Q : Store -> Prop) (m : M A) (k : A -> M B) :
  leads P R m -> (forall st, R st -> Q st) -> (forall a, leads R Q (k a)) ->
  leads P Q (bind m k).
Proof.
  intros Hm HRQ Hk st HP. unfold bind. specialize (Hm st HP).
  destruct (m st) as [[a|r] st']; cbn [snd] in *; [apply Hk, Hm | apply HRQ, Hm].
Qed.

Lemma keeps_bind {A B} (P : Store -> Prop) (m : M A) (k : A -> M B) :
  leads P P m -> (forall a, leads P P (k a)) -> leads P P (bind m k).
Proof. intros Hm Hk. apply (leads_bind P P P); [exact Hm | tauto | exact Hk]. Qed.

Lemma keeps_ret {A} (P : Store -> Prop) (a : A) : leads P P (ret a).
Proof. intros st H. exact H. Qed.

Lemma keeps_raise {A} (P : Store -> Prop) r : leads P P (@raise A r).
Proof. intros st H. exact H. Qed.

Lemma keeps_get_world (P : Store -> Prop) : leads P P get_world.
Proof. intros st H. exact H. Qed.

Lemma keeps_get_self (P : Store -> Prop) : leads P P get_self.
Proof. intros st H. exact H. Qed.

Lemma keeps_get_rebound (P : Store -> Prop) : leads P P get_rebound.
Proof. intros st H. exact H. Qed.

Lemma keeps_method {A} (P : Store -> Prop) name (m : M A) :
  leads P P m -> leads P P (Plugin.method name m).
Proof.
  intros Hm st H. unfold Plugin.method, bind, get_rebound.
  destruct (rebound_lookup name (st_rebound st)) as [[v|]|]; [exact H | apply Hm, H..].
Qed.

Section Framed.

Context (t0 : list Event) (orgs : gmap Z OrgConfiguration) (ou : option User) (b : Rebound).

Local Abbreviation I := (framed t0 orgs ou b).

Lemma keeps_emit ev : quiet ev = true -> leads I I (emit ev).
Proof.
  intros Hev [[w i] b0] (Ht & Ho & Hu & Hb). destruct w as [? ? ? ? ? ? ? ?].
  repeat split; try assumption.
  eapply extends_trans; [exact Ht|]. apply extends_cons; [exact Hev | apply extends_refl].
Qed.

Lemma keeps_modify_self f :
  (forall i, i_user (f i) = i_user i) -> leads I I (modify_self f).
Proof.
  intros Hf [[w i] b0] (Ht & Ho & Hu & Hb).
  repeat split; try assumption. cbn. rewrite Hf. exact Hu.
Qed.

Lemma keeps_modify_world f :
  (forall w, w_trace (f w) = w_trace w /\ w_org_configs (f w) = w_org_configs w) ->
  leads I I (modify_world f).
Proof.
  intros Hf [[w i] b0] (Ht & Ho & Hu & Hb). destruct (Hf w) as (H1 & H2).
  repeat split; try assumption.
  - unfold quiet_since in *. cbn in *. rewrite H1. exact Ht.
  - cbn in *. rewrite H2. exact Ho.
Qed.

Lemma keeps_call {A} name (m : M A) : leads I I m -> leads I I (call name m).
Proof.
  intros Hm. unfold call. apply keeps_bind; [|intros _; exact Hm].
  apply keeps_emit. reflexivity.
Qed.

Lemma keeps_instance_attribute {A} cn name (slot : Instance -> option A) :
  leads I I (Plugin.instance_attribute cn name slot).
Proof.
  unfold Plugin.instance_attribute. apply keeps_bind; [apply keeps_get_rebound|].
  intros b0. destruct (rebound_lookup name b0) as [[v|]|];
    [apply keeps_ret | apply keeps_raise |].
  apply keeps_bind; [apply keeps_get_self|]. intros i.
  destruct (slot i); [apply keeps_ret | apply keeps_raise].
Qed.

Lemma keeps_member_of {A} member (x : attribute A) : leads I I (Plugin.member_of member x).
Proof. destruct x; [apply keeps_ret | apply keeps_raise]. Qed.

Lemma keeps_report_member cn member : leads I I (Plugin.report_member cn member).
Proof.
  unfold Plugin.report_member, Plugin.report.
  apply keeps_bind; [apply keeps_instance_attribute | intros x; apply keeps_member_of].
Qed.

Lemma keeps_set_report_member cn member f ev :
  quiet ev = true -> leads I I (Plugin.set_report_member cn member f ev).
Proof.
  intros Hev. unfold Plugin.set_report_member, Plugin.report.
  apply keeps_bind; [apply keeps_instance_attribute|]. intros [r|v].
  - apply keeps_bind; [|intros _; apply keeps_emit, Hev].
    apply keeps_modify_self. intros [? ? ? ? ? ? ?]. reflexivity.
  - destruct v; first [apply keeps_ret | apply keeps_raise].
Qed.

Lemma keeps_Report_save r fields : leads I I (Report_save r fields).
Proof.
  unfold Report_save. apply keeps_bind; [apply keeps_get_world|]. intros w.
  destruct fields as [fs|].
  - destruct (w_reports w !! rep_pk r); [|apply keeps_raise].
    apply keeps_bind; [|intros _; apply keeps_emit; reflexivity].
    apply keeps_modify_world. intros [? ? ? ? ? ? ? ?]. split; reflexivity.
  - apply keeps_bind; [|intros _; apply keeps_emit; reflexivity].
    apply keeps_modify_world. intros [? ? ? ? ? ? ? ?]. split; reflexivity.
Qed.

Lemma keeps_report_save cn fields : leads I I (Plugin.report_save cn fields).
Proof.
  unfold Plugin.report_save.
  apply keeps_bind; [apply keeps_report_member | intros r; apply keeps_Report_save].
Qed.

Lemma keeps_now : leads I I now.
Proof.
  unfold now. apply keeps_bind; [apply keeps_get_world|]. intros w.
  apply keeps_bind; [|intros _; apply keeps_ret].
  apply keeps_modify_world. intros [? ? ? ? ? ? ? ?]. split; reflexivity.
Qed.

Lemma keeps_after_run cn : leads I I (Plugin.after_run cn).
Proof.
  unfold Plugin.after_run. apply keeps_bind; [apply keeps_now|]. intros t.
  apply keeps_bind; [apply keeps_set_report_member; reflexivity|]. intros _.
  apply keeps_report_save.
Qed.

Lemma keeps_after_run_success cn content : leads I I (Plugin.after_run_success cn content).
Proof.
  unfold Plugin.after_run_success.
  apply keeps_bind; [apply keeps_set_report_member; reflexivity|]. intros _.
  apply keeps_bind; [apply keeps_report_member|]. intros _.
  apply keeps_bind; [apply keeps_set_report_member; reflexivity|]. intros _.
  apply keeps_report_save.
Qed.

Lemma keeps_str_self cls : leads I I (Plugin.str_self cls).
Proof.
  unfold Plugin.str_self. apply keeps_bind; [apply keeps_get_rebound|]. intros b0.
  apply keeps_bind; [apply keeps_get_self|]. intros i.
  destruct (rebound_lookup "_job_id" b0) as [[v|]|]; apply keeps_ret.
Qed.

Lemma keeps_error_message cls e is_base_err :
  leads I I (Plugin.error_message cls e is_base_err).
Proof.
  unfold Plugin.error_message, Plugin.config_model_name.
  apply keeps_bind; [apply keeps_str_self|]. intros s.
  apply keeps_bind; [|intros kind; apply keeps_ret].
  destruct is_base_err; [apply keeps_ret|].
  apply keeps_bind; [|intros m; apply keeps_ret].
  apply keeps_bind; [apply keeps_get_rebound|]. intros b0.
  destruct (rebound_lookup "config_model" b0) as [[v|]|];
    [apply keeps_raise | apply keeps_ret..].
Qed.

Lemma keeps_log_error cls e : leads I I (Plugin.log_error cls e).
Proof.
  unfold Plugin.log_error.
  apply keeps_bind; [apply keeps_method, keeps_ret|]. intros exceptions.
  destruct (isinstance_any e _).
  - apply keeps_bind; [apply keeps_method, keeps_error_message|]. intros m.
    apply keeps_emit. reflexivity.
  - apply keeps_bind; [apply keeps_emit; reflexivity|]. intros _.
    apply keeps_bind; [apply keeps_method, keeps_error_message|]. intros m.
    apply keeps_emit. reflexivity.
Qed.

End Framed.

Lemma framed_quiet t0 orgs ou b st : framed t0 orgs ou b st -> quiet_since t0 st.
Proof. intros (H & _). exact H. Qed.

Lemma quiet_framed t0 st :
  quiet_since t0 st ->
  framed t0 (w_org_configs (st_world st)) (i_user (st_self st)) (st_rebound st) st.
Proof. intros H. repeat split. exact H. Qed.

(** What keeps every frame invokes no disable action. *)
Lemma keeps_quiet {A} (m : M A) t0 :
  (forall orgs ou b, leads (framed t0 orgs ou b) (framed t0 orgs ou b) m) ->
  leads (quiet_since t0) (quiet_since t0) m.
Proof.
  intros Hm st H. eapply framed_quiet. apply Hm. apply quiet_framed, H.
Qed.

Lemma leads_method {A} (P Q : Store -> Prop) name (m : M A) :
  leads P Q m -> (forall st, P st -> Q st) -> leads P Q (Plugin.method name m).
Proof.
  intros Hm HPQ st H. unfold Plugin.method, bind, get_rebound.
  destruct (rebound_lookup name (st_rebound st)) as [[v|]|]; [apply HPQ, H | apply Hm, H..].
Qed.

Ltac gsimpl :=
  cbv beta iota delta
    [set_w_jobs set_w_reports set_w_next_report_pk set_w_org_configs set_w_now
     set_w_trace set_i_job_id set_i_job set_i_user set_i_parameters set_i_attrs
     set_i_report st_world st_self store_state st_rebound
     w_settings w_jobs w_reports w_next_report_pk w_org_configs w_now w_head w_trace
     i_config i_job_id i_job i_user i_parameters i_attrs i_report fst snd option_map].

(** [disable_for_rate_limit] disables nothing for a user who has no
    organization with a rate-limit timeout. *)
Lemma disable_for_rate_limit_quiet cls t0 orgs u b :
  rebound_lookup "_user" b <> Some None ->
  (membership u = None
   \/ exists org oc, membership u = Some org /\ orgs !! org = Some oc
                     /\ rate_limit_timeout oc = None) ->
  leads (framed t0 orgs (Some u) b) (quiet_since t0) (Plugin.disable_for_rate_limit cls).
Proof.
  intros Hb Hq. unfold Plugin.disable_for_rate_limit.
  apply (leads_bind _ (framed t0 orgs (Some u) b));
    [apply keeps_str_self | apply framed_quiet |]. intros s.
  apply (leads_bind _ (framed t0 orgs (Some u) b));
    [apply keeps_emit; reflexivity | apply framed_quiet |]. intros _.
  intros [[[? ? ? ? orgs0 ? ? tr] [? ? ? ou ? ? ?]] b0] (Ht & Ho & Hu & Hb0).
  unfold quiet_since in *. cbn in Ht, Ho, Hu, Hb0. subst orgs0 ou b0.
  unfold Plugin._user, Plugin.parameters, Plugin._config, Plugin.instance_attribute,
    Plugin.member_of, get_or_create_org_configuration.
  unfold_monad. gsimpl.
  destruct (rebound_lookup "_user" b) as [[v|]|]; [exact Ht | contradiction |].
  gsimpl.
  destruct Hq as [Hm | (org & oc & Hm & Hoc & Hnone)]; rewrite Hm; gsimpl.
  - eapply extends_trans; [exact Ht|].
    apply extends_cons; [reflexivity | apply extends_refl].
  - destruct (rebound_lookup "_config" b) as [[v|]|]; gsimpl; [exact Ht|exact Ht|].
    rewrite Hoc. gsimpl. rewrite Hnone. gsimpl.
    eapply extends_trans; [exact Ht|].
    apply extends_cons; [reflexivity | apply extends_refl].
Qed.

Lemma report_member_rebound cn member (st : Store) x :
  rebound_lookup "report" (st_rebound st) = Some x ->
  exists r, Plugin.report_member cn member st = (Raise r, st).
Proof.
  intros H. unfold Plugin.report_member, Plugin.report, Plugin.instance_attribute,
    Plugin.member_of. unfold_monad. rewrite H.
  destruct x as [v|]; eexists; reflexivity.
Qed.

(** [after_run_failed] invokes no disable action when the exception is no
    429, or when the user has no organization with a timeout. *)
Lemma after_run_failed_quiet cls e t0 orgs u b :
  user_kept b ->
  (Plugin.is_rate_limit e = false
   \/ membership u = None
   \/ exists org oc, membership u = Some org /\ orgs !! org = Some oc
                     /\ rate_limit_timeout oc = None) ->
  leads (framed t0 orgs (Some u) b) (quiet_since t0) (Plugin.after_run_failed cls e).
Proof.
  intros Hk Hq.
  destruct (rebound_lookup "report" b) as [x|] eqn:Erep.
  { intros st Hfr. assert (Hb : st_rebound st = b) by apply Hfr.
    rewrite <- Hb in Erep.
    destruct (report_member_rebound (cls_name cls) "errors" st x Erep) as (r & Hr).
    unfold Plugin.after_run_failed. unfold bind at 1. rewrite Hr.
    apply (framed_quiet _ _ _ _ _ Hfr). }
  specialize (Hk Erep).
  set (I := framed t0 orgs (Some u) b).
  unfold Plugin.after_run_failed.
  apply (leads_bind _ I); [apply keeps_report_member | apply framed_quiet |]. intros r.
  apply (leads_bind _ I); [|apply framed_quiet|].
  { apply keeps_modify_self. intros [? ? ? ? ? ? ?]. reflexivity. }
  intros _.
  apply (leads_bind _ I); [apply keeps_emit; reflexivity | apply framed_quiet |]. intros _.
  apply (leads_bind _ I); [apply keeps_report_member | apply framed_quiet |]. intros _.
  apply (leads_bind _ I);
    [apply keeps_set_report_member; reflexivity | apply framed_quiet |]. intros _.
  apply (leads_bind _ I); [apply keeps_report_save | apply framed_quiet |]. intros _.
  apply (leads_bind _ (quiet_since t0)); [|tauto|].
  - destruct (Plugin.is_rate_limit e).
    + destruct Hq as [Hq|Hq]; [discriminate Hq|].
      apply leads_method; [|apply framed_quiet].
      apply disable_for_rate_limit_quiet; assumption.
    + apply leads_method; [|apply framed_quiet].
      intros st Hfr. eapply framed_quiet. exact (keeps_log_error _ _ _ _ cls e st Hfr).
  - intros _. apply keeps_bind; [apply keeps_get_world|]. intros w.
    destruct (STAGE_CI _); [apply keeps_raise | apply keeps_ret].
Qed.

(** The handlers of the [try] block invoke no disable action when the block
    did not end with a 429, or when the user has no organization with a
    timeout. *)
Lemma handlers_quiet cls res t0 orgs u b :
  user_kept b ->
  ((forall e, res = Raise (Raised e) -> Plugin.is_rate_limit e = false)
   \/ membership u = None
   \/ exists org oc, membership u = Some org /\ orgs !! org = Some oc
                     /\ rate_limit_timeout oc = None) ->
  leads (framed t0 orgs (Some u) b) (quiet_since t0) (handlers cls res).
Proof.
  intros Hk Hq. unfold handlers. destruct res as [v|[e|c m]].
  - intros st Hfr. eapply framed_quiet.
    refine (keeps_method _ _ _ _ st Hfr). apply keeps_call, keeps_after_run_success.
  - cbn [except_Exception].
    apply leads_method; [|apply framed_quiet]. unfold call.
    apply (leads_bind _ (framed t0 orgs (Some u) b));
      [apply keeps_emit; reflexivity | apply framed_quiet |]. intros _.
    apply after_run_failed_quiet; [exact Hk|].
    destruct Hq as [Hq|Hq]; [left; apply Hq; reflexivity | right; exact Hq].
  - cbn [except_Exception]. intros st Hfr. exact (framed_quiet _ _ _ _ _ Hfr).
Qed.

Lemma call_after_run_quiet cn t0 :
  leads (quiet_since t0) (quiet_since t0)
        (Plugin.method "after_run" (call "after_run" (Plugin.after_run cn))).
Proof.
  apply keeps_quiet. intros orgs ou b.
  apply keeps_method, keeps_call, keeps_after_run.
Qed.

(** [start], from the [try] block on. *)
Lemma start_handlers cls job_id rc task_id (s : State) j :
  resolved_job s job_id = Some j ->
  Plugin.start cls job_id rc task_id s =
    let '(r1, s1) := try_body cls rc (created s job_id j task_id) in
    let '(r2, s2) := handlers cls r1 s1 in
    match call_after_run cls s2 with
    | (Ok _, s3) => (r2, s3)
    | (Raise r, s3) => (Raise r, s3)
    end.
Proof.
  intros Hj. rewrite (start_unfold _ _ _ _ _ _ Hj). unfold try_except_else_finally.
  destruct (try_body cls rc (created s job_id j task_id)) as [r1 s1].
  unfold handlers. destruct r1 as [v|r]; [reflexivity|].
  destruct (except_Exception r); reflexivity.
Qed.

Section NoDisable.

Context (name cm : string) (attrs : gmap string value) (exs : list string).
Context (before_run_outcome : Result unit) (run_outcome : Result value).

Local Abbreviation plugin' :=
  (concrete_plugin name cm attrs exs before_run_outcome run_outcome).

Lemma start_quiet job_id rc task_id (s : State) j :
  resolved_job s job_id = Some j ->
  let co := cfg_read_configured_params (i_config (st_self s)) (resolved_user s j) rc in
  ((forall e, body_result co before_run_outcome run_outcome = Raise (Raised e) ->
              Plugin.is_rate_limit e = false)
   \/ no_rate_limit_timeout (st_world s) (resolved_user s j)) ->
  disable_invocations s (snd (Plugin.start plugin' job_id rc task_id s)) = 0%nat.
Proof.
  intros Hj co Hq. apply extends_count_quiet.
  rewrite (start_handlers _ _ _ _ _ _ Hj).
  set (s0 := created s job_id j task_id).
  assert (Hj0 : i_job (st_self s0) = Some j) by reflexivity.
  destruct (try_body_general name cm attrs exs before_run_outcome run_outcome rc s0 j Hj0)
    as (Ht & Ho & Hu & Hk & Hres).
  cbv zeta in *.
  change (resolved_user s0 j) with (resolved_user s j) in *.
  change (i_config (st_self s0)) with (i_config (st_self s)) in *.
  fold co in Hres.
  change (w_org_configs (st_world s0)) with (w_org_configs (st_world s)) in Ho.
  assert (Ht0 : extends quiet (w_trace (st_world s)) (w_trace (st_world s0))).
  { destruct s as [[? ? ? ? ? ? ? ?] ?]. apply extends_cons; [reflexivity|apply extends_refl]. }
  destruct (try_body plugin' rc s0) as [r1 s1]. cbn [fst snd] in *.
  set (t0 := w_trace (st_world s)) in *.
  assert (Hfr : framed t0 (w_org_configs (st_world s)) (Some (resolved_user s j))
                       (st_rebound s1) s1).
  { repeat split; [eapply extends_trans; eassumption | exact Ho | exact Hu]. }
  assert (Hh : quiet_since t0 (snd (handlers plugin' r1 s1))).
  { refine (handlers_quiet plugin' r1 t0 _ _ _ Hk _ s1 Hfr).
    destruct Hq as [Hq | Hq]; [left | right; exact Hq].
    intros e ->. destruct Hres as [Hres | Hc].
    - apply Hq. symmetry. exact Hres.
    - apply collision_not_rate_limit. exact (collision_retype _ Hc). }
  destruct (handlers plugin' r1 s1) as [r2 s2]. cbn [snd] in Hh.
  pose proof (call_after_run_quiet name t0 s2 Hh) as Ha.
  change (Plugin.method "after_run" (call "after_run" (Plugin.after_run name)))
    with (call_after_run plugin') in Ha.
  destruct (call_after_run plugin' s2) as [[[]|r3] s3]; exact Ha.
Qed.

End NoDisable.

(** ** The failure path of [start] *)

(** X1. Whatever [config], [before_run] and [run] do, an execution for a user
    who has no organization, or whose organization's configuration has a
    null rate-limit timeout, never invokes the disable action. *)
Theorem start_never_disables_without_timeout
    name cm attrs exs b r job_id rc task_id (s : State) j :
  resolved_job s job_id = Some j ->
  no_rate_limit_timeout (st_world s) (resolved_user s j) ->
  disable_invocations s
    (snd (Plugin.start (concrete_plugin name cm attrs exs b r) job_id rc task_id s)) = 0%nat.
Proof.
  intros Hj Hq.
  apply (start_quiet name cm attrs exs b r job_id rc task_id s j Hj).
  right. exact Hq.
Qed.

Lemma start_never_disables_without_timeout_witness :
  let orgs : gmap Z OrgConfiguration := {[ 10 := mkOrgConfiguration None false ]} in
  let s := Sample.initial false orgs (Ok [Sample.org_key]) in
  disable_invocations s
    (snd (Plugin.start (Sample.plugin (Raise (Raised Sample.err429))) 7 [] "task" s)) = 0%nat.
Proof.
  intros orgs s.
  assert (Hj : resolved_job s 7 = Some Sample.job7) by (vm_compute; reflexivity).
  apply (start_never_disables_without_timeout "X" "AnalyzerConfig" ∅ ["AnalyzerRunException"]
           (Ok tt) (Raise (Raised Sample.err429)) 7 [] "task" s Sample.job7 Hj).
  right. exists 10, (mkOrgConfiguration None false).
  split; [reflexivity|]. split; [vm_compute; reflexivity | reflexivity].
Defined.

(** X2. An exception of [config], [before_run] or [run] that is no HTTP 429
    never invokes the disable action, whatever the organization. *)
Theorem start_never_disables_without_429
    name cm attrs exs b r job_id rc task_id (s : State) j e :
  resolved_job s job_id = Some j ->
  body_result (cfg_read_configured_params (i_config (st_self s)) (resolved_user s j) rc) b r
    = Raise (Raised e) ->
  Plugin.is_rate_limit e = false ->
  disable_invocations s
    (snd (Plugin.start (concrete_plugin name cm attrs exs b r) job_id rc task_id s)) = 0%nat.
Proof.
  intros Hj Hbody He.
  apply (start_quiet name cm attrs exs b r job_id rc task_id s j Hj).
  left. intros e' He'. rewrite Hbody in He'. injection He' as <-. exact He.
Qed.

Lemma start_never_disables_without_429_witness :
  let s := Sample.initial false Sample.org3600 (Ok [Sample.org_key]) in
  let e := mkHTTPError "500 Server Error" (ResponseStatus 500) in
  disable_invocations s
    (snd (Plugin.start (Sample.plugin (Raise (Raised e))) 7 [] "task" s)) = 0%nat.
Proof.
  intros s e.
  assert (Hj : resolved_job s 7 = Some Sample.job7) by (vm_compute; reflexivity).
  apply (start_never_disables_without_429 "X" "AnalyzerConfig" ∅ ["AnalyzerRunException"]
           (Ok tt) (Raise (Raised e)) 7 [] "task" s Sample.job7 e Hj eq_refl eq_refl).
Defined.

(** X3. When [config] returned, no parameter is bound under a name that has
    a meaning of its own for the plugin, and [before_run] or [run] raises an
    exception [e] that derives from [Exception], [start] hides it from its
    caller: it returns normally. Only in the strict mode [STAGE_CI] does the
    caller see [e] itself, raised again after the report was marked. *)
Theorem start_reraises_only_in_strict_mode
    name cm attrs exs b r job_id rc task_id (s : State) j ps e :
  resolved_job s job_id = Some j ->
  cfg_read_configured_params (i_config (st_self s)) (resolved_user s j) rc = Ok ps ->
  Plugin.ordinary ps ->
  body_result (Ok ps) b r = Raise (Raised e) ->
  fst (Plugin.start (concrete_plugin name cm attrs exs b r) job_id rc task_id s)
  = if STAGE_CI (w_settings (st_world s)) then Raise (Raised e) else Ok tt.
Proof.
  intros Hj Hco Hord Hbody.
  assert (Hord' : forall ps',
             cfg_read_configured_params (i_config (st_self s)) (resolved_user s j) rc
             = Ok ps' -> Plugin.ordinary ps') by (intros ps' H; congruence).
  destruct (start_summary name cm attrs exs b r job_id rc task_id s j Hj Hord')
    as (evs & ops & f & _ & _ & Hps & Heq).
  cbv zeta in Hps. rewrite Hco in Hps. specialize (Hps ps eq_refl). subst ops.
  rewrite Heq, lift_fst, Hco, Hbody. clear Heq.
  match goal with
  | |- context [start_outcome ?c _ ?s1 ?r0] =>
      destruct (outcome_failed c e s1 r0) as (Hres & _)
  end.
  cbv zeta in Hres. rewrite Hres. erewrite failed_tail_result; reflexivity.
Qed.

Lemma start_reraises_only_in_strict_mode_witness :
  fst (Plugin.start (Sample.plugin (Raise (Raised Sample.domain_error))) 7 [] "task"
         (Sample.initial false Sample.org3600 (Ok []))) = Ok tt
  /\ fst (Plugin.start (Sample.plugin (Raise (Raised Sample.domain_error))) 7 [] "task"
            (Sample.initial true Sample.org3600 (Ok [])))
     = Raise (Raised Sample.domain_error).
Proof.
  split.
  - assert (Hj : resolved_job (Sample.initial false Sample.org3600 (Ok [])) 7
                 = Some Sample.job7) by (vm_compute; reflexivity).
    apply (start_reraises_only_in_strict_mode "X" "AnalyzerConfig" ∅ ["AnalyzerRunException"]
             (Ok tt) (Raise (Raised Sample.domain_error)) 7 [] "task" _ Sample.job7 []
             Sample.domain_error Hj eq_refl (List.Forall_nil _) eq_refl).
  - assert (Hj : resolved_job (Sample.initial true Sample.org3600 (Ok [])) 7
                 = Some Sample.job7) by (vm_compute; reflexivity).
    apply (start_reraises_only_in_strict_mode "X" "AnalyzerConfig" ∅ ["AnalyzerRunException"]
             (Ok tt) (Raise (Raised Sample.domain_error)) 7 [] "task" _ Sample.job7 []
             Sample.domain_error Hj eq_refl (List.Forall_nil _) eq_refl).
Defined.

(** ** [config]: the binding of parameters *)

Lemma user_frame cn (s : State) :
  exists (s1 : State),
    snd (Plugin._user cn s) = intact s1
    /\ st_world s1 = st_world s
    /\ i_config (st_self s1) = i_config (st_self s)
    /\ i_parameters (st_self s1) = i_parameters (st_self s)
    /\ i_attrs (st_self s1) = i_attrs (st_self s)
    /\ i_report (st_self s1) = i_report (st_self s).
Proof.
  destruct s as [w [? ? ? ? ? ? ?]].
  unfold Plugin._user, Plugin._job, Plugin.job_id, Job_objects_get. unfold_access.
  unfold_monad. psimpl.
  destruct_matches; (eexists (mkState _ _); split; [reflexivity|]; repeat split).
Qed.




(** [config], once the user is there. *)
Lemma config_after_user cls rc (s : State) u (s1 : State) :
  fst (Plugin._user (cls_name cls) s) = Ok (Held u) ->
  snd (Plugin._user (cls_name cls) s) = intact s1 ->
  i_config (st_self s1) = i_config (st_self s) ->
  Plugin.config cls rc s =
    match cfg_read_configured_params (i_config (st_self s)) u rc with
    | Ok ps =>
        Plugin.for_each ps (Plugin.bind_parameter cls)
          (mkState (st_world s1) (set_i_parameters (Some ps) (st_self s1)))
    | Raise r => (Raise r, intact s1)
    end.
Proof.
  intros Hu Hs1 Hcfg. unfold Plugin.config. rewrite config_member.
  unfold bind at 1.
  destruct (Plugin._user (cls_name cls) s) as [res st1]. cbn [fst snd] in Hu, Hs1. subst res st1.
  unfold Plugin.read_configured_params.
  unfold bind at 1. unfold outcome at 1.
  destruct (cfg_read_configured_params (i_config (st_self s)) u rc) as [ps|r]; reflexivity.
Qed.



(** X5. When [read_configured_params] raises, [config] raises the same
    exception and binds nothing: the parameters and the attributes of the
    instance are as before. *)
Theorem config_failure_binds_nothing cls rc (s : State) u r :
  fst (Plugin._user (cls_name cls) s) = Ok (Held u) ->
  cfg_read_configured_params (i_config (st_self s)) u rc = Raise r ->
  let x := Plugin.config cls rc s in
  fst x = Raise r
  /\ i_parameters (st_self (snd x)) = i_parameters (st_self s)
  /\ i_attrs (st_self (snd x)) = i_attrs (st_self s)
  /\ st_world (snd x) = st_world s.
Proof.
  intros Hu Hco x. subst x.
  destruct (user_frame (cls_name cls) s) as (s1 & Hs1 & Hw & Hcfg & Hps & Hattrs & _).
  rewrite (config_after_user cls rc s u s1 Hu Hs1 Hcfg), Hco.
  simpl. repeat split; assumption.
Qed.

Lemma config_failure_binds_nothing_witness :
  let s := mkState (st_world (Sample.initial false Sample.org3600 (Ok [])))
                   (set_i_job_id (Some 7)
                      (st_self (Sample.initial false Sample.org3600
                                  (Raise (Raised Sample.domain_error))))) in
  let x := Plugin.config (Sample.plugin (Ok VNone)) [] s in
  fst x = Raise (Raised Sample.domain_error)
  /\ i_parameters (st_self (snd x)) = None.
Proof.
  intros s x.
  destruct (config_failure_binds_nothing (Sample.plugin (Ok VNone)) [] s Sample.alice
              (Raised Sample.domain_error))
    as (H1 & H2 & _);
    [vm_compute; reflexivity | reflexivity |].
  split; [exact H1 | exact H2].
Defined.

(** ** [_job]: the cached lookup *)

(** X6. [_job] is a cached property: once it has returned a job, it returns
    that job again without looking it up, whatever has become of the Job
    Store and of [job_id] since. *)
Theorem job_lookup_is_cached cn (s : State) j (s1 : State) :
  Plugin._job cn s = (Ok (Held j), s1) ->
  forall w' jid,
    let s2 := mkState w' (set_i_job_id jid (st_self s1)) in
    Plugin._job cn s2 = (Ok (Held j), s2).
Proof.
  intros H w' jid s2. subst s2.
  assert (Hc : i_job (st_self s1) = Some j).
  { destruct s as [[? jobs ? ? ? ? ? ?] [? ojid cached ? ? ? ?]].
    unfold Plugin._job, Plugin.job_id, Job_objects_get in H. unfold_access.
    unfold_monad. psimpl.
    destruct cached as [j'|].
    - injection H as <- <-. reflexivity.
    - destruct ojid as [pk|]; [|discriminate H]. psimpl.
      destruct (jobs !! pk) as [j'|]; [|discriminate H].
      injection H as <- <-. reflexivity. }
  destruct s1 as [w1 [? ? cached ? ? ? ?]]. simpl in Hc. subst cached.
  reflexivity.
Qed.

Lemma job_lookup_is_cached_witness :
  let s := mkState (Sample.world false ∅)
                   (mkInstance (Sample.cfg (Ok [])) (Some 7) None None None ∅ None) in
  let s2 := mkState (set_w_jobs (delete 7) (st_world s))
                    (set_i_job_id (Some 8) (st_self (snd (Plugin._job "X" s)))) in
  fst (Plugin._job "X" s2) = Ok (Held Sample.job7).
Proof.
  intros s s2.
  assert (H : Plugin._job "X" s = (Ok (Held Sample.job7), store_state (snd (Plugin._job "X" s))))
    by (vm_compute; reflexivity).
  unfold s2.
  rewrite (job_lookup_is_cached "X" s Sample.job7 _ H (set_w_jobs (delete 7) (st_world s))
             (Some 8)).
  reflexivity.
Defined.

(** ** [after_run_failed] and [log_error] *)

Lemma expected_error_cases cls e :
  expected_error cls e =
    (isinstance_any e (cls_get_exceptions_to_catch cls)
     || isinstance e SoftTimeLimitExceeded || isinstance e HTTPError)%bool.
Proof.
  unfold expected_error, isinstance_any. rewrite existsb_app. simpl.
  rewrite orb_false_r, orb_assoc. reflexivity.
Qed.

(** X7. [after_run_failed] on an exception that is no HTTP 429, for a report
    that has its row: it marks and saves the report, then writes one log
    line. For an exception of the allow-list, a [SoftTimeLimitExceeded] or an
    [HTTPError] that is an ERROR line and no traceback; for any other it
    is the traceback and an EXCEPTION line that says "Unexpected error". It
    returns, except in the strict mode, where it raises the exception
    again. *)
Theorem after_run_failed_logs_by_class cls e (s : State) r row :
  i_report (st_self s) = Some r ->
  w_reports (st_world s) !! rep_pk r = Some row ->
  Plugin.is_rate_limit e = false ->
  let x := Plugin.after_run_failed cls e s in
  let recorded := [EvSave (rep_pk r) (Some ["status"; "errors"]); EvSetStatus FAILED;
                   EvAppendError (exc_str e)] in
  fst x = (if STAGE_CI (w_settings (st_world s)) then Raise (Raised e) else Ok tt)
  /\ ((isinstance_any e (cls_get_exceptions_to_catch cls) = true
       \/ isinstance e SoftTimeLimitExceeded = true \/ isinstance e HTTPError = true) ->
      new_events s (snd x)
      = EvLog ERROR (Plugin.get_error_message cls (st_self s) e false) [] :: recorded)
  /\ (isinstance_any e (cls_get_exceptions_to_catch cls) = false ->
      isinstance e SoftTimeLimitExceeded = false ->
      isinstance e HTTPError = false ->
      new_events s (snd x)
      = EvLog EXCEPTION (Plugin.get_error_message cls (st_self s) e true) []
        :: EvPrintExc :: recorded).
Proof.
  intros Hr Hrow He x recorded. subst x.
  rewrite (after_run_failed_eq cls e s r row Hr Hrow).
  pose proof (expected_error_cases cls e) as Hexp. unfold expected_error in Hexp.
  destruct s as [[? ? ? ? ? ? ? ?] [? ? ? ? ? ? ?]]. simpl in Hr, Hrow. subst.
  unfold failed_tail, Plugin.log_error. rewrite He. unfold failed.
  unfold Plugin.error_message. unfold_access. unfold_monad. psimpl.
  rewrite Hexp. clear Hexp.
  split; [|split].
  - destruct (_ || _ || _)%bool; cbv beta iota; psimpl; destruct (STAGE_CI _); reflexivity.
  - intros Hcls.
    assert (Ht : (isinstance_any e (cls_get_exceptions_to_catch cls)
                  || isinstance e SoftTimeLimitExceeded || isinstance e HTTPError)%bool = true).
    { destruct Hcls as [-> | [-> | ->]];
        [reflexivity | apply orb_true_iff; left; apply orb_true_r | apply orb_true_r]. }
    rewrite Ht. cbv beta iota. psimpl.
    apply new_events_app. destruct (STAGE_CI _); reflexivity.
  - intros -> -> ->. cbv beta iota delta [orb]. psimpl.
    apply new_events_app. destruct (STAGE_CI _); reflexivity.
Qed.

Lemma after_run_failed_logs_by_class_witness :
  let s := SampleExtra.reported false in
  new_events s (snd (Plugin.after_run_failed (Sample.plugin (Ok VNone))
                       SampleExtra.soft_time_limit s))
  = [EvLog ERROR "(X, job: #7). AnalyzerConfig error: 'SoftTimeLimitExceeded()'" [];
     EvSave 1 (Some ["status"; "errors"]); EvSetStatus FAILED;
     EvAppendError "SoftTimeLimitExceeded()"]
  /\ new_events s (snd (Plugin.after_run_failed (Sample.plugin (Ok VNone))
                          SampleExtra.key_error s))
     = [EvLog EXCEPTION "(X, job: #7). Unexpected error: ''field''" []; EvPrintExc;
        EvSave 1 (Some ["status"; "errors"]); EvSetStatus FAILED;
        EvAppendError "'field'"].
Proof.
  intros s.
  assert (Hrow : w_reports (st_world s) !! 1 = Some SampleExtra.running_report)
    by (vm_compute; reflexivity).
  split.
  - apply (proj1 (proj2 (after_run_failed_logs_by_class (Sample.plugin (Ok VNone))
                           SampleExtra.soft_time_limit s SampleExtra.running_report
                           SampleExtra.running_report eq_refl Hrow eq_refl))).
    right. left. reflexivity.
  - apply (proj2 (proj2 (after_run_failed_logs_by_class (Sample.plugin (Ok VNone))
                           SampleExtra.key_error s SampleExtra.running_report
                           SampleExtra.running_report eq_refl Hrow eq_refl)));
      reflexivity.
Defined.

(** X8. [_handle_exception] marks the in-memory report only: it appends the
    stringified exception, sets FAILED and logs one ERROR line, but it saves
    nothing, so the row of the report is as before. The traceback is printed
    exactly when [is_base_err] is false. *)
Theorem handle_exception_does_not_save cls exc is_base_err (s : State) r :
  i_report (st_self s) = Some r ->
  let x := Plugin._handle_exception cls exc is_base_err s in
  fst x = Ok tt
  /\ i_report (st_self (snd x))
     = Some (set_rep_status FAILED (set_rep_errors (rep_errors r ++ [exc_str exc]) r))
  /\ w_reports (st_world (snd x)) = w_reports (st_world s)
  /\ new_events s (snd x)
     = [EvSetStatus FAILED; EvAppendError (exc_str exc);
        EvLog ERROR (Plugin.get_error_message cls (st_self s) exc is_base_err) []]
       ++ (if is_base_err then [] else [EvPrintExc]).
Proof.
  intros Hr x. subst x.
  destruct s as [[? ? ? ? ? ? ? ?] [? ? ? ? ? ? ?]]. simpl in Hr. subst.
  unfold Plugin._handle_exception, Plugin.error_message.
  unfold_access. unfold_monad. psimpl.
  destruct is_base_err; cbv beta iota delta [negb fst snd]; psimpl;
    (repeat split; apply new_events_app; reflexivity).
Qed.

Lemma handle_exception_does_not_save_witness :
  let s := SampleExtra.reported false in
  let x := Plugin._handle_exception (Sample.plugin (Ok VNone)) SampleExtra.key_error false s in
  (rep_status <$> i_report (st_self (snd x))) = Some FAILED
  /\ (rep_status <$> w_reports (st_world (snd x)) !! 1) = Some RUNNING.
Proof.
  intros s x.
  destruct (handle_exception_does_not_save (Sample.plugin (Ok VNone)) SampleExtra.key_error
              false s SampleExtra.running_report eq_refl) as (_ & Hrep & Hrows & _).
  fold x in Hrep, Hrows. rewrite Hrep, Hrows. split; [reflexivity | vm_compute; reflexivity].
Defined.

(** ** More on the health check *)

Lemma get_health_check_url_trace cls user (s : State) :
  exists v evs (s' : State),
    Plugin._get_health_check_url cls user s = (Ok v, s')
    /\ w_trace (st_world s') = evs ++ w_trace (st_world s)
    /\ forallb noise evs = true
    /\ w_settings (st_world s') = w_settings (st_world s)
    /\ w_head (st_world s') = w_head (st_world s)
    /\ st_self s' = st_self s.
Proof.
  destruct s as [[? ? ? ? ? ? ? ?] [? ? ? ? ? ? ?]].
  unfold Plugin._get_health_check_url. unfold_access. unfold_monad. psimpl.
  destruct_matches; cbv beta iota delta [fst snd]; psimpl;
    first [ eexists _, [], (mkState _ _); split; [reflexivity|]; repeat split; fail
          | eexists _, [_], (mkState _ _); split; [reflexivity|]; repeat split ].
Qed.

Lemma noise_no_request ev : noise ev = true -> is_head_request ev = false.
Proof. destruct ev; simpl; intros H; try reflexivity; discriminate H. Qed.

(** X9. With a probe URL that starts with "http" and outside the mock modes,
    the health check is decided by the HEAD request alone: a response is
    unhealthy exactly when its status is from 409 to 599; a
    [ConnectionError], [Timeout] or [HTTPError] of the request is unhealthy
    too; any other exception of the request reaches the caller. *)
Theorem health_check_by_response cls user (s : State) url :
  fst (Plugin._get_health_check_url cls user s) = Ok (VStr url) ->
  String.prefix "http" url = true ->
  mocked (st_world s) = false ->
  fst (Plugin.health_check cls user s)
  = match w_head (st_world s) url with
    | HeadResponse c _ => Ok (negb (Z.leb 409 c && Z.ltb c 600))
    | HeadRaises e =>
        if isinstance_any e [ConnectionError; Timeout; HTTPError]
        then Ok false
        else Raise (Raised e)
    end.
Proof.
  intros Hv Hp Hmock.
  destruct (get_health_check_url_trace cls user s)
    as (v & evs & s' & Hget & _ & _ & Hset & Hhead & _).
  rewrite Hget in Hv. injection Hv as ->.
  unfold Plugin.health_check. unfold bind at 1. rewrite method_intact, Hget. clear Hget.
  destruct s' as [[? ? ? ? ? ? ? ?] [? ? ? ? ? ? ?]].
  destruct s as [[? ? ? ? ? ? ? ?] [? ? ? ? ? ? ?]].
  unfold mocked in Hmock. psimpl. subst.
  assert (Ht : truthy (VStr url) = true) by (destruct url; [discriminate Hp | reflexivity]).
  rewrite Ht. unfold Plugin.startswith, Plugin.requests_head,
    Plugin.raise_for_status, try_except_else_finally.
  unfold_access. unfold_monad. rewrite Hp. psimpl. rewrite Hmock. psimpl.
  unfold Plugin.str_of_url.
  match goal with |- context [match ?h url with _ => _ end] => destruct (h url) as [c reason|e] end.
  - cbv beta iota delta [fst snd]. psimpl.
    destruct (Z.leb 400 c) eqn:H400, (Z.leb c 408) eqn:H408, (Z.ltb c 500) eqn:H500,
             (Z.leb 500 c) eqn:H5, (Z.ltb c 600) eqn:H600, (Z.leb 409 c) eqn:H409;
      try reflexivity; exfalso;
      repeat match goal with
             | H : Z.leb _ _ = true |- _ => apply Z.leb_le in H
             | H : Z.leb _ _ = false |- _ => apply Z.leb_gt in H
             | H : Z.ltb _ _ = true |- _ => apply Z.ltb_lt in H
             | H : Z.ltb _ _ = false |- _ => apply Z.ltb_ge in H
             end; lia.
  - cbv beta iota delta [fst snd except_classes]. psimpl.
    destruct (isinstance_any e _); reflexivity.
Qed.

Lemma health_check_by_response_witness :
  let cls := Sample.plugin (Ok VNone) in
  let answers c := Sample.probe_state [Sample.url_param] (fun _ => HeadResponse c "") in
  fst (Plugin.health_check cls None (answers 200)) = Ok true
  /\ fst (Plugin.health_check cls None (answers 404)) = Ok true
  /\ fst (Plugin.health_check cls None (answers 409)) = Ok false
  /\ fst (Plugin.health_check cls None (answers 503)) = Ok false.
Proof.
  intros cls answers.
  pose proof (fun c => health_check_by_response cls None (answers c) "https://service.example"
                        eq_refl eq_refl eq_refl) as H.
  split; [exact (H 200%Z)|split; [exact (H 404%Z)|split; [exact (H 409%Z)|exact (H 503%Z)]]].
Defined.

Lemma count_requests_leaf (s s' : State) (pre evs : list Event) n :
  w_trace (st_world s') = pre ++ evs ++ w_trace (st_world s) ->
  count is_head_request evs = 0%nat ->
  count is_head_request pre = n ->
  count is_head_request (new_events s s') = n.
Proof.
  intros Htr Hevs <-. rewrite (new_events_app s s' (pre ++ evs)).
  - rewrite count_app, Hevs. lia.
  - rewrite Htr. apply app_assoc.
Qed.

Ltac falsy :=
  cbv beta iota delta [fst snd http_url andb]; psimpl;
  match goal with
  | Hevs : count is_head_request ?evs = 0%nat |- _ =>
      split;
      [ eapply (count_requests_leaf _ (mkState _ _) [] evs);
        [reflexivity | exact Hevs | reflexivity]
      | split; [intros H; discriminate H | intros _; eexists; reflexivity] ]
  end.

Tactic Notation "leaf" uconstr(pre) :=
  eapply (count_requests_leaf _ (mkState _ _) pre);
  [cbv beta iota zeta delta [fst snd]; psimpl; reflexivity | eassumption | reflexivity].

(** X10. The health check issues a HEAD request exactly when the probe URL is
    a string that starts with "http" and no mock mode is on; then it issues
    one. In a mock mode such a URL is healthy without a request; any other
    probe URL, or none, ends in an exception without a request. *)
Theorem health_check_requests cls user (s : State) v :
  fst (Plugin._get_health_check_url cls user s) = Ok v ->
  let x := Plugin.health_check cls user s in
  count is_head_request (new_events s (snd x))
  = (if http_url v && negb (mocked (st_world s)) then 1 else 0)%nat
  /\ (http_url v = true -> mocked (st_world s) = true -> fst x = Ok true)
  /\ (http_url v = false -> exists r, fst x = Raise r).
Proof.
  intros Hv x.
  destruct (get_health_check_url_trace cls user s)
    as (v' & evs & s' & Hget & Htr & Hn & Hset & Hhead & _).
  rewrite Hget in Hv. injection Hv as ->.
  pose proof (count_none is_head_request noise evs noise_no_request Hn) as Hevs.
  assert (Hx : x = Plugin.health_check cls user s) by reflexivity. clearbody x.
  unfold Plugin.health_check in Hx. unfold bind at 1 in Hx.
  rewrite method_intact, Hget in Hx. clear Hget.
  destruct s' as [[? ? ? ? ? ? ? tr'] [? ? ? ? ? ? ?]].
  destruct s as [[set ? ? ? ? ? head tr] [? ? ? ? ? ? ?]].
  unfold mocked. psimpl. subst.
  unfold Plugin.startswith, Plugin.requests_head,
    Plugin.raise_for_status, try_except_else_finally, http_url.
  unfold_access. unfold_monad. unfold no_attribute.
  destruct v as [|b|z|u|bs|fl|l|l|d]; cbv beta iota delta [truthy].
  - falsy.
  - destruct b; falsy.
  - destruct (negb (Z.eqb z 0)); falsy.
  - destruct (negb (String.eqb u "")) eqn:Hu.
    + destruct (String.prefix "http" u) eqn:Hp; cbv beta iota delta [fst snd]; psimpl.
      * destruct (STAGE_CI set || MOCK_CONNECTIONS set)%bool eqn:Hm;
          cbv beta iota delta [fst snd]; psimpl.
        -- split; [leaf (@nil Event) | split; [reflexivity | discriminate]].
        -- unfold Plugin.str_of_url.
           destruct (head u) as [c reason|e]; cbv beta iota delta [fst snd]; psimpl.
           ++ destruct (Z.leb 400 c && Z.leb c 408)%bool;
                cbv beta iota delta [fst snd]; psimpl;
                [split; [leaf [_; _] | split; discriminate]|].
              destruct (Z.leb 400 c && Z.ltb c 500)%bool;
                cbv beta iota delta [fst snd]; psimpl;
                [split; [leaf [_; _; _]
                        | split; discriminate]|].
              destruct (Z.leb 500 c && Z.ltb c 600)%bool;
                cbv beta iota delta [fst snd]; psimpl;
                [split; [leaf [_; _; _]
                        | split; discriminate]|].
              split; [leaf [_; _] | split; discriminate].
           ++ cbv beta iota delta [except_classes].
              destruct (isinstance_any e _); cbv beta iota delta [fst snd]; psimpl.
              ** split; [leaf [_; _; _]
                        | split; discriminate].
              ** split; [leaf [_; _] | split; discriminate].
      * falsy.
    + destruct u as [|a u']; [|discriminate Hu]. falsy.
  - destruct bs; falsy.
  - destruct (negb (String.eqb (f_name fl) "")); falsy.
  - destruct l; falsy.
  - destruct l; falsy.
  - destruct d; falsy.
Qed.

Lemma health_check_requests_witness :
  let x := Plugin.health_check (Sample.plugin (Ok VNone)) None SampleExtra.probe_mocked in
  count is_head_request (new_events SampleExtra.probe_mocked (snd x)) = 0%nat
  /\ fst x = Ok true.
Proof.
  intros x.
  destruct (health_check_requests (Sample.plugin (Ok VNone)) None SampleExtra.probe_mocked
              (VStr "https://service.example") eq_refl) as (Hcount & Hmock & _).
  split; [exact Hcount | apply Hmock; reflexivity].
Defined.

Lemma first_configured_sound params p :
  Plugin.first_configured params = Some p ->
  In p params /\ p_configured p = true /\ truthy (p_value p) = true.
Proof.
  induction params as [|q params IH]; simpl; [discriminate|].
  destruct (p_configured q) eqn:Hc, (truthy (p_value q)) eqn:Ht; simpl.
  - intros [= <-]. repeat split; [left; reflexivity | exact Hc | exact Ht].
  - intros H. destruct (IH H) as (? & ? & ?). repeat split; [right|..]; assumption.
  - intros H. destruct (IH H) as (? & ? & ?). repeat split; [right|..]; assumption.
  - intros H. destruct (IH H) as (? & ? & ?). repeat split; [right|..]; assumption.
Qed.

(** X11. [_get_health_check_url] returns [None] or a truthy value, never an
    empty one; and a value it returns is the value of a configured parameter
    whose name contains "url" (in any case), or else the [url] attribute of
    the plugin. *)
Theorem get_health_check_url_sound cls user (s : State) v :
  fst (Plugin._get_health_check_url cls user s) = Ok v ->
  v <> VNone ->
  truthy v = true
  /\ ((exists p, In p (cfg_annotated_parameters (i_config (st_self s)) user)
                 /\ icontains "url" (p_name p) = true
                 /\ p_configured p = true
                 /\ p_value p = v)
      \/ Plugin.getattr cls (st_self s) "url" = Some v).
Proof.
  destruct s as [w i]. unfold Plugin._get_health_check_url.
  unfold_access. unfold_monad. psimpl. simpl.
  destruct (Plugin.first_configured _) as [p|] eqn:Hfirst; simpl.
  - intros [= <-] _. apply first_configured_sound in Hfirst as (Hin & Hc & Ht).
    apply filter_In in Hin as [Hin Hname].
    split; [exact Ht|]. left. exists p. repeat split; assumption.
  - destruct (Plugin.getattr cls i "url") as [a|] eqn:Hattr; simpl.
    + destruct (truthy a) eqn:Ht; simpl; intros [= <-] Hv; [|contradiction].
      split; [exact Ht | right; reflexivity].
    + intros [= <-] Hv. contradiction.
Qed.

Lemma get_health_check_url_sound_witness :
  let s := Sample.probe_state [Sample.url_param] Sample.head405 in
  truthy (VStr "https://service.example") = true
  /\ ((exists p, In p (cfg_annotated_parameters (i_config (st_self s)) None)
                 /\ icontains "url" (p_name p) = true
                 /\ p_configured p = true
                 /\ p_value p = VStr "https://service.example")
      \/ Plugin.getattr (Sample.plugin (Ok VNone)) (st_self s) "url"
         = Some (VStr "https://service.example")).
Proof.
  intros s.
  apply (get_health_check_url_sound (Sample.plugin (Ok VNone)) None s
           (VStr "https://service.example") eq_refl).
  discriminate.
Defined.
(** ** More on the aggregation task *)



(** ** Discovery of plugin classes *)

Example replace_all : Discovery.replace "ab" "-" "abcabab" = "-c--".
Proof. reflexivity. Qed.
Example replace_overlap : Discovery.replace "aa" "b" "aaa" = "ba".
Proof. reflexivity. Qed.
Example replace_empty_old : Discovery.replace "" "-" "abc" = "-a-b-c-".
Proof. reflexivity. Qed.
Example module_key_bbot :
  Discovery.module_key "api_app.analyzers_manager.observable_analyzers.bbot"
    "api_app.analyzers_manager.observable_analyzers" "Bbot" = "bbot.Bbot".
Proof. reflexivity. Qed.

Lemma leb_iff a b :
  String.leb a b = true <-> a = b \/ OrderedTypeEx.String_as_OT.lt a b.
Proof.
  unfold String.leb. destruct (String.compare a b) eqn:Hc.
  - apply OrderedTypeEx.String_as_OT.cmp_eq in Hc. tauto.
  - apply OrderedTypeEx.String_as_OT.cmp_lt in Hc. tauto.
  - split; [discriminate|]. intros [Heq | Hlt].
    + apply OrderedTypeEx.String_as_OT.cmp_eq in Heq.
      unfold OrderedTypeEx.String_as_OT.cmp in Heq. congruence.
    + apply OrderedTypeEx.String_as_OT.cmp_lt in Hlt.
      unfold OrderedTypeEx.String_as_OT.cmp in Hlt. congruence.
Qed.

Lemma leb_trans a b c :
  String.leb a b = true -> String.leb b c = true -> String.leb a c = true.
Proof.
  rewrite !leb_iff. intros [-> | Hab] [-> | Hbc]; auto.
  right. eapply OrderedTypeEx.String_as_OT.lt_trans; eassumption.
Qed.

Lemma leb_false_le a b : String.leb a b = false -> String.leb b a = true.
Proof. intros H. destruct (String.leb_total a b) as [Hab | Hba]; congruence. Qed.

Lemma insert_by_name_perm c l : Permutation (Discovery.insert_by_name c l) (c :: l).
Proof.
  induction l as [|d l IH]; simpl; [reflexivity|].
  destruct (String.leb (cls_name c) (cls_name d)); [reflexivity|].
  rewrite IH. apply perm_swap.
Qed.

Lemma insert_by_name_sorted c l :
  StronglySorted name_le l -> StronglySorted name_le (Discovery.insert_by_name c l).
Proof.
  induction l as [|d l IH]; simpl; intros Hs.
  - constructor; constructor.
  - inversion Hs as [|? ? Hl Hd]; subst.
    destruct (String.leb (cls_name c) (cls_name d)) eqn:Hcd.
    + constructor; [exact Hs|]. constructor; [exact Hcd|].
      eapply Forall_impl; [exact Hd|]. intros e He. eapply leb_trans; eassumption.
    + constructor; [apply IH, Hl|].
      eapply Permutation_Forall; [symmetry; apply insert_by_name_perm|].
      constructor; [apply leb_false_le, Hcd | exact Hd].
Qed.

(** X13. [all_subclasses] returns the classes that [__subclasses__()] gave
    and whose name does not start with "MockUp", each as often as it was
    given, in the order of their names. *)
Theorem all_subclasses_sorted_without_mockups classes :
  Permutation (Discovery.all_subclasses classes)
              (List.filter (fun c => negb (Discovery.is_mockup c)) classes)
  /\ StronglySorted name_le (Discovery.all_subclasses classes)
  /\ Forall (fun c => String.prefix "MockUp" (cls_name c) = false)
            (Discovery.all_subclasses classes).
Proof.
  unfold Discovery.all_subclasses.
  set (kept := List.filter _ classes).
  assert (Hperm : Permutation (Discovery.sorted_by_name kept) kept).
  { induction kept as [|c l IH]; simpl; [reflexivity|].
    rewrite insert_by_name_perm. constructor. exact IH. }
  split; [exact Hperm|]. split.
  - clear Hperm. induction kept as [|c l IH]; simpl; [constructor|].
    apply insert_by_name_sorted, IH.
  - eapply Permutation_Forall; [symmetry; exact Hperm|].
    apply Forall_forall. intros c Hc. apply list_elem_of_In in Hc.
    unfold kept in Hc. apply filter_In in Hc as [_ Hc].
    apply negb_true_iff in Hc. exact Hc.
Qed.

Lemma prefix_append p t : String.prefix p (p ++ t)%string = true.
Proof.
  induction p as [|c p IH]; simpl; [destruct t; reflexivity|].
  destruct (ascii_dec c c) as [_|Hne]; [exact IH | contradiction].
Qed.

Lemma replace_from_skip old new p : forall t,
  Discovery.replace_from old new (String.length p) (p ++ t)%string
  = Discovery.replace_from old new 0 t.
Proof. induction p as [|c p IH]; intros t; simpl; [reflexivity | apply IH]. Qed.

Lemma replace_from_absent old new : forall t,
  contains old t = false -> Discovery.replace_from old new 0 t = t.
Proof.
  induction t as [|c t IH]; [reflexivity|].
  cbn [contains Discovery.replace_from]. intros H.
  apply orb_false_iff in H as [Hp Ht]. rewrite Hp, (IH Ht). reflexivity.
Qed.

(** X14. The key under which [python_module] looks a class up: when the
    module of the class is the base path, one more character and a rest in
    which the base path does not occur again, the key is that rest, a dot and
    the class name. When the base path does not occur in the module at all,
    the module still loses its first character. *)
Theorem module_key_strips_base_path base c rest class_name :
  base <> EmptyString ->
  (contains base (String c rest) = false ->
   Discovery.module_key (base ++ String c rest) base class_name
   = (rest ++ "." ++ class_name)%string)
  /\ (forall module,
        contains base module = false ->
        Discovery.module_key module base class_name
        = (Discovery.drop_first module ++ "." ++ class_name)%string).
Proof.
  intros Hbase. unfold Discovery.module_key, Discovery.replace.
  destruct base as [|b base']; [contradiction|]. split.
  - intros Habsent.
    assert (Hrep : Discovery.replace_from (String b base') "" 0
                     (String b base' ++ String c rest) = String c rest).
    { pose proof (prefix_append (String b base') (String c rest)) as Hp.
      change (String b base' +:+ String c rest) with (String b (base' +:+ String c rest)) in *.
      cbn [Discovery.replace_from]. rewrite Hp.
      cbn [String.length Nat.sub]. rewrite Nat.sub_0_r, replace_from_skip.
      apply replace_from_absent, Habsent. }
    rewrite Hrep. reflexivity.
  - intros module Habsent. rewrite replace_from_absent by exact Habsent. reflexivity.
Qed.

Lemma module_key_strips_base_path_witness :
  Discovery.module_key "api_app.analyzers_manager.observable_analyzers.bbot"
    "api_app.analyzers_manager.observable_analyzers" "Bbot" = "bbot.Bbot"
  /\ Discovery.module_key "tests.mock" "api_app.analyzers_manager" "MockUpAnalyzer"
     = "ests.mock.MockUpAnalyzer".
Proof.
  split.
  - apply (proj1 (module_key_strips_base_path
                    "api_app.analyzers_manager.observable_analyzers" "." "bbot" "Bbot"
                    ltac:(discriminate)));
      reflexivity.
  - apply (proj2 (module_key_strips_base_path "api_app.analyzers_manager" "." "" "MockUpAnalyzer"
                    ltac:(discriminate)));
      reflexivity.
Defined.

(** ** The Bbot analyzer *)

Lemma handle_lists result data :
  Bbot.domains (Bbot.handle result data)
  = Bbot.domains result ++ (if Bbot.is_domain data then [data] else [])
  /\ Bbot.subdomains (Bbot.handle result data)
     = Bbot.subdomains result ++ (if Bbot.is_subdomain data then [data] else [])
  /\ Bbot.related_urls (Bbot.handle result data)
     = Bbot.related_urls result ++ (if Bbot.is_related_url data then [data] else []).
Proof.
  unfold Bbot.handle, Bbot.is_domain, Bbot.is_subdomain, Bbot.is_related_url.
  destruct data as [|b|z|s|bs|f|l|l|d]; simpl; rewrite ?app_nil_r; try (repeat split; fail).
  - destruct (contains "." s); simpl; [|rewrite !app_nil_r; repeat split].
    destruct (String.prefix "ns-" s || String.prefix "alt" s)%bool; simpl;
      rewrite ?app_nil_r; repeat split.
  - destruct (Bbot.has_key "id" d && Bbot.has_key "name" d)%bool; simpl.
    + destruct (Bbot.scan_id result); simpl; rewrite !app_nil_r; repeat split.
    + destruct (Bbot.has_key "url" d); simpl; rewrite ?app_nil_r; repeat split.
Qed.

Lemma fold_handle_lists events : forall result,
  Bbot.domains (fold_left Bbot.handle events result)
  = Bbot.domains result ++ List.filter Bbot.is_domain events
  /\ Bbot.subdomains (fold_left Bbot.handle events result)
     = Bbot.subdomains result ++ List.filter Bbot.is_subdomain events
  /\ Bbot.related_urls (fold_left Bbot.handle events result)
     = Bbot.related_urls result ++ List.filter Bbot.is_related_url events.
Proof.
  induction events as [|data events IH]; intros result; simpl.
  - rewrite !app_nil_r. repeat split.
  - destruct (IH (Bbot.handle result data)) as (H1 & H2 & H3).
    destruct (handle_lists result data) as (E1 & E2 & E3).
    rewrite H1, H2, H3, E1, E2, E3.
    destruct (Bbot.is_domain data), (Bbot.is_subdomain data), (Bbot.is_related_url data);
      rewrite <- ?app_assoc; repeat split.
Qed.

(** X15. The three lists of the result of [Bbot.run] are the events of their
    kind, in the order of the scan, each once: [domains] the strings with a
    dot that start with neither "ns-" nor "alt", [subdomains] the strings
    with a dot that do, [related_urls] the dicts that have the key "url" and not
    both "id" and "name". Strings without a dot, other dicts and other data
    are in none of them. *)
Theorem bbot_lists_are_the_events_by_kind events :
  Bbot.domains (Bbot.collect events) = List.filter Bbot.is_domain events
  /\ Bbot.subdomains (Bbot.collect events) = List.filter Bbot.is_subdomain events
  /\ Bbot.related_urls (Bbot.collect events) = List.filter Bbot.is_related_url events.
Proof. apply (fold_handle_lists events Bbot.initial). Qed.

Lemma handle_other result data :
  Bbot.is_scan data = false ->
  Bbot.metadata (Bbot.handle result data) = Bbot.metadata result
  /\ Bbot.ending (Bbot.handle result data) = Bbot.ending result.
Proof.
  unfold Bbot.is_scan, Bbot.handle. intros H.
  destruct data as [|b|z|s|bs|f|l|l|d]; try (split; reflexivity).
  - destruct (contains "." s); [|split; reflexivity].
    destruct (String.prefix "ns-" s || String.prefix "alt" s)%bool; split; reflexivity.
  - rewrite H. destruct (Bbot.has_key "url" d); split; reflexivity.
Qed.

Lemma fold_handle_other events : forall result,
  Forall (fun data => Bbot.is_scan data = false) events ->
  Bbot.metadata (fold_left Bbot.handle events result) = Bbot.metadata result
  /\ Bbot.ending (fold_left Bbot.handle events result) = Bbot.ending result.
Proof.
  induction events as [|data events IH]; intros result H; [split; reflexivity|].
  inversion H as [|? ? Hd Hrest]; subst. simpl.
  destruct (IH (Bbot.handle result data) Hrest) as [-> ->].
  apply handle_other, Hd.
Qed.

Lemma handle_scan_started result d :
  Bbot.is_scan (VDict d) = true ->
  Bbot.scan_id result <> VNone ->
  Bbot.metadata (Bbot.handle result (VDict d)) = Bbot.metadata result
  /\ Bbot.ending (Bbot.handle result (VDict d)) = Bbot.ended_by d.
Proof.
  unfold Bbot.is_scan, Bbot.handle. intros -> Hid.
  destruct (Bbot.scan_id result) eqn:E; try congruence;
    unfold Bbot.metadata, Bbot.ending; cbn [Bbot.scan_id Bbot.scan_name Bbot.target
      Bbot.preset Bbot.status Bbot.started_at Bbot.finished_at Bbot.duration];
    rewrite ?E; split; reflexivity.
Qed.

Lemma handle_started result data :
  Bbot.scan_id result <> VNone ->
  Bbot.metadata (Bbot.handle result data) = Bbot.metadata result.
Proof.
  intros Hid. destruct (Bbot.is_scan data) eqn:Hs.
  - destruct data; try discriminate Hs. apply handle_scan_started; assumption.
  - apply handle_other, Hs.
Qed.

Lemma fold_handle_started events : forall result,
  Bbot.scan_id result <> VNone ->
  Bbot.metadata (fold_left Bbot.handle events result) = Bbot.metadata result.
Proof.
  induction events as [|data events IH]; intros result Hid; [reflexivity|].
  simpl. pose proof (handle_started result data Hid) as Hm.
  rewrite IH; [exact Hm|].
  unfold Bbot.metadata in Hm. injection Hm as -> _ _ _ _ _. exact Hid.
Qed.

Lemma handle_scan_fresh result d :
  Bbot.is_scan (VDict d) = true ->
  Bbot.scan_id result = VNone ->
  Bbot.metadata (Bbot.handle result (VDict d)) = Bbot.started_by d
  /\ Bbot.ending (Bbot.handle result (VDict d)) = Bbot.ending result.
Proof.
  unfold Bbot.is_scan, Bbot.handle. intros -> ->. split; reflexivity.
Qed.

Lemma fold_left_app_cons {A B} (f : A -> B -> A) l1 x l2 a :
  fold_left f (l1 ++ x :: l2) a = fold_left f l2 (f (fold_left f l1 a) x).
Proof. rewrite fold_left_app. reflexivity. Qed.

(** X16. In the result of [Bbot.run], the scan's id, name, target, preset,
    status and start time are those of the first event whose data is a dict
    with the keys "id" and "name", when its id is not None; no later event
    changes them. The end time and duration are None when no such event
    follows, and otherwise those of the last one that follows. *)
Theorem bbot_first_scan_event_starts pre d post :
  Forall (fun data => Bbot.is_scan data = false) pre ->
  Bbot.is_scan (VDict d) = true ->
  Bbot.get "id" d <> VNone ->
  Bbot.metadata (Bbot.collect (pre ++ VDict d :: post)) = Bbot.started_by d
  /\ (Forall (fun data => Bbot.is_scan data = false) post ->
      Bbot.ending (Bbot.collect (pre ++ VDict d :: post)) = [VNone; VNone])
  /\ (forall mid d' rest,
        post = mid ++ VDict d' :: rest ->
        Bbot.is_scan (VDict d') = true ->
        Forall (fun data => Bbot.is_scan data = false) rest ->
        Bbot.ending (Bbot.collect (pre ++ VDict d :: post)) = Bbot.ended_by d').
Proof.
  intros Hpre Hd Hid. unfold Bbot.collect. rewrite fold_left_app_cons.
  destruct (fold_handle_other pre Bbot.initial Hpre) as [Hm He].
  set (r0 := fold_left Bbot.handle pre Bbot.initial) in *.
  assert (Hnone : Bbot.scan_id r0 = VNone).
  { unfold Bbot.metadata in Hm. injection Hm as -> _ _ _ _ _. reflexivity. }
  destruct (handle_scan_fresh r0 d Hd Hnone) as [Hm1 He1].
  set (r1 := Bbot.handle r0 (VDict d)) in *.
  assert (Hset : Bbot.scan_id r1 <> VNone).
  { unfold Bbot.metadata, Bbot.started_by in Hm1. injection Hm1 as -> _ _ _ _ _. exact Hid. }
  split; [|split].
  - rewrite fold_handle_started; assumption.
  - intros Hpost. destruct (fold_handle_other post r1 Hpost) as [_ ->].
    rewrite He1, He. reflexivity.
  - intros mid d' rest -> Hd' Hrest. rewrite fold_left_app_cons.
    set (r2 := fold_left Bbot.handle mid r1).
    assert (Hset2 : Bbot.scan_id r2 <> VNone).
    { pose proof (fold_handle_started mid r1 Hset) as Hm2. fold r2 in Hm2.
      unfold Bbot.metadata in Hm2. injection Hm2 as -> _ _ _ _ _. exact Hset. }
    destruct (fold_handle_other rest (Bbot.handle r2 (VDict d')) Hrest) as [_ ->].
    apply handle_scan_started; assumption.
Qed.

Lemma bbot_first_scan_event_starts_witness :
  let started := [("id", VStr "SCAN:1"); ("name", VStr "demo"); ("status", VStr "RUNNING")] in
  let finished := [("id", VStr "SCAN:1"); ("name", VStr "demo"); ("duration", VStr "3s")] in
  let events := [VStr "example.com"; VDict started; VStr "ns-1.example.com"; VDict finished] in
  Bbot.metadata (Bbot.collect events)
  = [VStr "SCAN:1"; VStr "demo"; VNone; VNone; VStr "RUNNING"; VNone]
  /\ Bbot.ending (Bbot.collect events) = [VNone; VStr "3s"].
Proof.
  intros started finished events.
  assert (Hpre : Forall (fun data => Bbot.is_scan data = false) [VStr "example.com"]).
  { repeat constructor. }
  assert (Hid : Bbot.get "id" started <> VNone) by (vm_compute; discriminate).
  destruct (bbot_first_scan_event_starts [VStr "example.com"] started
              [VStr "ns-1.example.com"; VDict finished] Hpre eq_refl Hid) as (Hm & _ & He).
  split; [exact Hm|].
  apply (He [VStr "ns-1.example.com"] finished []); [reflexivity|reflexivity|constructor].
Defined.

(** X17. A first scan event whose id is None does not count as the start of
    the scan in [Bbot.run]: the scan event that follows it is read as the
    start, its end time and duration are not recorded, and the name, target,
    preset, status and start time of the first one are replaced. *)
Theorem bbot_scan_without_id_is_no_start pre d mid d' rest :
  Forall (fun data => Bbot.is_scan data = false) pre ->
  Bbot.is_scan (VDict d) = true ->
  Bbot.get "id" d = VNone ->
  Forall (fun data => Bbot.is_scan data = false) mid ->
  Bbot.is_scan (VDict d') = true ->
  Forall (fun data => Bbot.is_scan data = false) rest ->
  Bbot.metadata (Bbot.collect (pre ++ VDict d :: mid ++ VDict d' :: rest)) = Bbot.started_by d'
  /\ Bbot.ending (Bbot.collect (pre ++ VDict d :: mid ++ VDict d' :: rest)) = [VNone; VNone].
Proof.
  intros Hpre Hd Hid Hmid Hd' Hrest. unfold Bbot.collect.
  rewrite fold_left_app_cons, fold_left_app_cons.
  destruct (fold_handle_other pre Bbot.initial Hpre) as [Hm He].
  set (r0 := fold_left Bbot.handle pre Bbot.initial) in *.
  assert (Hnone : Bbot.scan_id r0 = VNone).
  { unfold Bbot.metadata in Hm. injection Hm as -> _ _ _ _ _. reflexivity. }
  destruct (handle_scan_fresh r0 d Hd Hnone) as [Hm1 He1].
  set (r1 := Bbot.handle r0 (VDict d)) in *.
  destruct (fold_handle_other mid r1 Hmid) as [Hm2 He2].
  set (r2 := fold_left Bbot.handle mid r1) in *.
  assert (Hnone2 : Bbot.scan_id r2 = VNone).
  { rewrite Hm1 in Hm2. unfold Bbot.metadata, Bbot.started_by in Hm2.
    injection Hm2 as -> _ _ _ _ _. exact Hid. }
  destruct (handle_scan_fresh r2 d' Hd' Hnone2) as [Hm3 He3].
  destruct (fold_handle_other rest (Bbot.handle r2 (VDict d')) Hrest) as [-> ->].
  split; [exact Hm3|]. rewrite He3, He2, He1, He. reflexivity.
Qed.

Lemma bbot_scan_without_id_is_no_start_witness :
  let first := [("id", VNone); ("name", VStr "demo"); ("status", VStr "RUNNING")] in
  let second := [("id", VStr "SCAN:1"); ("name", VStr "demo"); ("duration", VStr "3s")] in
  let events := [VDict first; VStr "example.com"; VDict second] in
  Bbot.metadata (Bbot.collect events)
  = [VStr "SCAN:1"; VStr "demo"; VNone; VNone; VNone; VNone]
  /\ Bbot.ending (Bbot.collect events) = [VNone; VNone].
Proof.
  intros first second events.
  apply (bbot_scan_without_id_is_no_start [] first [VStr "example.com"] second []);
    try reflexivity; repeat constructor.
Defined.
